(** * Channel handlers of temba/channels/handlers.py

    A shallow embedding of the inbound channel handlers: the request
    parameters, the channel and message tables the handlers query and
    update, and each handler's [get]/[post] method as a function in a
    state-and-exception monad whose early exits are the [return
    HttpResponse(...)] statements of the source. *)

From Stdlib Require Import ZArith String Ascii.
From stdpp Require Import base option list gmap strings pretty.

Set Warnings "-register-all".
Local Open Scope Z_scope.

(** ** Python values the handlers branch on *)

(** Truth value of an optional string: [None] and [''] are falsy. *)
Definition truthy (v : option string) : bool :=
  match v with
  | None => false
  | Some s => negb (String.eqb s "")
  end.

(** [x == 'literal'] where [x] may be [None]. *)
Definition is_str (v : option string) (lit : string) : bool :=
  match v with
  | Some s => String.eqb s lit
  | None => false
  end.

Definition startswith (pre s : string) : bool := String.prefix pre s.

(** ASCII [str.lower()]. *)
Definition lower_ascii (c : ascii) : ascii :=
  let n := nat_of_ascii c in
  if (Nat.leb 65 n && Nat.leb n 90)%bool then ascii_of_nat (n + 32) else c.

Fixpoint lower (s : string) : string :=
  match s with
  | EmptyString => EmptyString
  | String c r => String (lower_ascii c) (lower r)
  end.

(** ** HTTP requests and responses *)

(** JSON documents, for the handlers that read [json.loads(request.body)]. *)
Inductive JSON :=
| JNull
| JBool (b : bool)
| JNum (n : Z)
| JStr (s : string)
| JArr (items : list JSON)
| JObj (fields : list (string * JSON)).

(** XML elements, for the handlers that read [ET.fromstring(request.body)]. *)
Inductive Element :=
| Elem (tag : string) (attrib : list (string * string))
       (text : option string) (children : list Element).

(** A [datetime]: its civil fields and, when aware, its time zone. *)
Record datetime := {
  year : Z; month : Z; day : Z;
  hour : Z; minute : Z; second : Z;
  tzinfo : option string;
}.

(** [d.replace(tzinfo=tz)] and [tz.localize(d)] on a naive [d]. *)
Definition replace_tzinfo (tz : string) (d : datetime) : datetime :=
  {| year := year d; month := month d; day := day d;
     hour := hour d; minute := minute d; second := second d;
     tzinfo := Some tz |}.

(** [GET], [POST] and [META] hold, for each key, the value that
    [QueryDict.__getitem__] returns; [body_json] and [body_xml] are the
    parsed body, [None] when the parser raises; [now] is
    [timezone.now()] at receipt. *)
Record HttpRequest := {
  GET : gmap string string;
  POST : gmap string string;
  META : gmap string string;
  full_path : string;
  body_json : option JSON;
  body_xml : option Element;
  now : datetime;
}.

(** A response body: text, or the document of a [JsonResponse] or a
    [json.dumps]. *)
Inductive Content :=
| Text (s : string)
| Json (j : JSON)
| Xml (e : Element).
Coercion Text : string >-> Content.

(** [Http c 200] is [HttpResponse(c)], whose status defaults to 200. *)
Record HttpResponse := Http {
  content : Content;
  status_code : nat;
}.

(** ['%s' % v] for a value that may be [None]. *)
Definition fmt_s (v : option string) : string :=
  match v with
  | Some s => s
  | None => "None"
  end.

(** The named groups of the handler's url pattern. *)
Record Kwargs := {
  kw_action : string;
  kw_uuid : string;
}.

Module BaseChannelHandler.

(** [get_param(self, name, default=None)]: the query string first,
    then the form body, then the default. *)
Definition get_param (request : HttpRequest) (name : string)
    (default : option string) : option string :=
  match GET request !! name with
  | Some v => Some v
  | None =>
      match POST request !! name with
      | Some v => Some v
      | None => default
      end
  end.

End BaseChannelHandler.

(** ** Python's [int()] on text *)

Definition is_space (c : ascii) : bool :=
  let n := nat_of_ascii c in
  (Nat.eqb n 32 || (Nat.leb 9 n && Nat.leb n 13))%bool.

Definition digit_of (c : ascii) : option Z :=
  let n := nat_of_ascii c in
  if (Nat.leb 48 n && Nat.leb n 57)%bool then Some (Z.of_nat n - 48) else None.

Fixpoint lstrip (s : string) : string :=
  match s with
  | String c r => if is_space c then lstrip r else s
  | EmptyString => EmptyString
  end.

(** Digits, then only white space: the value read so far is [acc];
    [seen] tells whether a digit was read. *)
Fixpoint digits_then_space (s : string) (acc : Z) (seen : bool) : option Z :=
  match s with
  | EmptyString => if seen then Some acc else None
  | String c r =>
      match digit_of c with
      | Some d => digits_then_space r (10 * acc + d) true
      | None =>
          if (seen && String.eqb (lstrip s) "")%bool then Some acc else None
      end
  end.

(** [int(s)]: surrounding white space, an optional sign, decimal
    digits; [None] stands for [ValueError]. *)
Definition py_int (s : string) : option Z :=
  match lstrip s with
  | String "-" r => Z.opp <$> digits_then_space r 0 false
  | String "+" r => digits_then_space r 0 false
  | r => digits_then_space r 0 false
  end.

(** ** Channels, messages and the store *)

Record Org := {
  org_id : nat;
  is_anon : bool;
  org_config : gmap string string;
}.

(** [config] is what [channel.config_json()] returns. *)
Record Channel := {
  channel_id : nat;
  uuid : string;
  channel_type : string;
  address : option string;
  role : string;
  is_active : bool;
  org : option Org;
  config : gmap string string;
  secret : option string;
  scheme : string;
}.

(** The channel type codes of migration 0045; [TYPE_CHIKKA] is not in
    that migration's list and only has to differ from the others. *)
Module ChannelTypes.
Definition TYPE_AFRICAS_TALKING := "AT".
Definition TYPE_ANDROID := "A".
Definition TYPE_BLACKMYNA := "BM".
Definition TYPE_CHIKKA := "CK".
Definition TYPE_CLICKATELL := "CT".
Definition TYPE_EXTERNAL := "EX".
Definition TYPE_FACEBOOK := "FB".
Definition TYPE_GLOBE := "GL".
Definition TYPE_HIGH_CONNECTION := "HX".
Definition TYPE_HUB9 := "H9".
Definition TYPE_INFOBIP := "IB".
Definition TYPE_JASMIN := "JS".
Definition TYPE_KANNEL := "KN".
Definition TYPE_LINE := "LN".
Definition TYPE_M3TECH := "M3".
Definition TYPE_MBLOX := "MB".
Definition TYPE_NEXMO := "NX".
Definition TYPE_PLIVO := "PL".
Definition TYPE_SHAQODOON := "SQ".
Definition TYPE_SMSCENTRAL := "SC".
Definition TYPE_START := "ST".
Definition TYPE_TELEGRAM := "TG".
Definition TYPE_TWILIO := "T".
Definition TYPE_TWIML := "TW".
Definition TYPE_TWILIO_MESSAGING_SERVICE := "TMS".
Definition TYPE_VERBOICE := "VB".
Definition TYPE_VIBER := "VI".
Definition TYPE_VUMI := "VM".
Definition TYPE_VUMI_USSD := "VMU".
Definition TYPE_YO := "YO".
Definition TYPE_ZENVIA := "ZV".
End ChannelTypes.
Export ChannelTypes.

Inductive Status :=
  PENDING | QUEUED | WIRED | SENT | DELIVERED | FAILED | INTERRUPTED.

Inductive Direction := INCOMING | OUTGOING.

Global Instance Status_eq_dec : EqDecision Status.
Proof. solve_decision. Defined.
Global Instance Direction_eq_dec : EqDecision Direction.
Proof. solve_decision. Defined.

(** A row of the message table; its primary key is the key it is
    stored under. *)
Record Msg := {
  msg_channel : option nat;
  msg_org : option Org;
  msg_urn : string;
  msg_text : option string;
  direction : Direction;
  status : Status;
  external_id : option string;
  created_on : datetime;
  media : option string;
  broadcast : option nat;
}.

Definition with_status (s : Status) (m : Msg) : Msg :=
  {| msg_channel := msg_channel m; msg_org := msg_org m; msg_urn := msg_urn m;
     msg_text := msg_text m; direction := direction m; status := s;
     external_id := external_id m; created_on := created_on m;
     media := media m; broadcast := broadcast m |}.

Definition with_external_id (e : option string) (m : Msg) : Msg :=
  {| msg_channel := msg_channel m; msg_org := msg_org m; msg_urn := msg_urn m;
     msg_text := msg_text m; direction := direction m; status := status m;
     external_id := e; created_on := created_on m;
     media := media m; broadcast := broadcast m |}.

Record Contact := {
  contact_org : nat;
  contact_urn : string;
  contact_name : option string;
}.

(** What a handler asks of its collaborators besides the tables. *)
Inductive Event :=
| EvHandleMsg (pk : nat)
| EvMsgFailed (pk : nat)
| EvTrackStatus (channel : nat) (what : string)
| EvBroadcastUpdate (bcast : nat)
| EvContactStop (urn : string)
| EvTrigger (kind : string) (urn : string) (channel : nat)
| EvPushTask (pk : nat) (new_contact : bool)
| EvWebHook (pk : nat)
| EvFollowTriggers (channel_id contact_urn_id : Z) (new_contact : bool)
| EvIncomingCall (channel : nat) (urn : string) (flow : nat)
| EvFbSubscribe (channel : nat).

(** The tables in primary-key order ([channels]), by primary key
    ([msgs]), and the collaborator calls made so far. *)
Record State := {
  channels : list Channel;
  msgs : gmap nat Msg;
  contacts : list Contact;
  events : list Event;
}.

Definition set_msgs (f : gmap nat Msg -> gmap nat Msg) (st : State) : State :=
  {| channels := channels st; msgs := f (msgs st);
     contacts := contacts st; events := events st |}.

Definition add_event (e : Event) (st : State) : State :=
  {| channels := channels st; msgs := msgs st;
     contacts := contacts st; events := events st ++ [e] |}.

Definition add_contact (c : Contact) (st : State) : State :=
  {| channels := channels st; msgs := msgs st;
     contacts := contacts st ++ [c]; events := events st |}.

(** ** The handler monad *)

Inductive Exn :=
| ValidationError (msg : string)
| KeyError (key : string)
| ValueError
| ParseError
| TypeError
| AttributeError
| IndexError
| DoesNotExist.

(** A statement either goes on with a value, leaves the method with a
    response, or raises. *)
Inductive Res (A : Type) :=
| Normal (a : A)
| Returned (r : HttpResponse)
| Raised (e : Exn).
Arguments Normal {A} a.
Arguments Returned {A} r.
Arguments Raised {A} e.

Definition M (A : Type) : Type := State -> Res A * State.

Definition ret {A} (a : A) : M A := fun st => (Normal a, st).
Definition return_ {A} (r : HttpResponse) : M A := fun st => (Returned r, st).
Definition raise {A} (e : Exn) : M A := fun st => (Raised e, st).

Definition bind {A B} (c : M A) (k : A -> M B) : M B :=
  fun st =>
    match c st with
    | (Normal a, st') => k a st'
    | (Returned r, st') => (Returned r, st')
    | (Raised e, st') => (Raised e, st')
    end.

Notation "'let*' x ':=' c 'in' k" := (bind c (fun x => k))
  (at level 10, x pattern, c at level 100, k at level 200).
Notation "c ';;' k" := (bind c (fun _ => k))
  (at level 100, k at level 200, right associativity).

Definition get_state : M State := fun st => (Normal st, st).
Definition modify (f : State -> State) : M unit := fun st => (Normal tt, f st).
Definition emit (e : Event) : M unit := modify (add_event e).

(** [for x in xs: body]. *)
Fixpoint for_each {A} (xs : list A) (body : A -> M unit) : M unit :=
  match xs with
  | [] => ret tt
  | x :: r => body x ;; for_each r body
  end.

(** [at_ c st]: the computation [c] run from the store [st]. *)
Definition at_ {A} (c : M A) (st : State) : Res A * State := c st.

(** What the caller of a handler method sees. *)
Inductive Outcome :=
| Response (r : HttpResponse)
| Exception (e : Exn).

Definition run (c : M HttpResponse) (st : State) : Outcome * State :=
  match c st with
  | (Normal r, st') => (Response r, st')
  | (Returned r, st') => (Response r, st')
  | (Raised e, st') => (Exception e, st')
  end.

(** ** Querysets *)

(** [Channel.objects.filter(...).first()]: the first row, in primary key
    order, that passes the filter. *)
Definition first_channel (p : Channel -> bool) : M (option Channel) :=
  fun st => (Normal (List.find p (channels st)), st).

(** A message fetched from the table: primary key and row. *)
Definition MsgObj : Type := nat * Msg.

(** The rows of the message table in primary-key order: the key range
    is scanned upwards. *)
Definition max_pk (t : gmap nat Msg) : nat := max_list (elements (dom t)).

Definition row_at (t : gmap nat Msg) (pk : nat) : option MsgObj :=
  (fun m => (pk, m)) <$> t !! pk.

Definition rows (t : gmap nat Msg) : list MsgObj :=
  omap (row_at t) (seq 0 (S (max_pk t))).

(** A lazy queryset over the message table is its filter; [fetch]
    evaluates it against the table as it is now. *)
Definition QuerySet : Type := MsgObj -> bool.

Definition fetch (q : QuerySet) : M (list MsgObj) :=
  fun st => (Normal (List.filter q (rows (msgs st))), st).

Definition qs_and (q : QuerySet) (p : MsgObj -> bool) : QuerySet :=
  fun o => (q o && p o)%bool.

(** [.first()]. *)
Definition fetch_first (q : QuerySet) : M (option MsgObj) :=
  let* l := fetch q in ret (head l).

(** A lookup value for an integer column: [None] (SQL NULL) matches no
    primary key, text goes through [int()] and may raise. *)
Definition pk_value (v : option string) : M (option Z) :=
  match v with
  | None => ret None
  | Some s => match py_int s with
              | Some n => ret (Some n)
              | None => raise ValueError
              end
  end.

Definition pk_is (v : option Z) (o : MsgObj) : bool :=
  match v with
  | Some n => Z.eqb (Z.of_nat o.1) n
  | None => false
  end.

Definition channel_is (c : Channel) (o : MsgObj) : bool :=
  bool_decide (msg_channel o.2 = Some (channel_id c)).

(** [external_id=v]; [None] is [IS NULL]. *)
Definition external_id_is (v : option string) (o : MsgObj) : bool :=
  bool_decide (external_id o.2 = v).

Definition status_in (l : list Status) (o : MsgObj) : bool :=
  bool_decide (status o.2 ∈ l).

Definition direction_is (d : Direction) (o : MsgObj) : bool :=
  bool_decide (direction o.2 = d).

(** [Msg.objects.filter(pk=...).update(...)] and [obj.save(...)]: the
    row stored under [pk] is replaced; a missing row stays missing. *)
Definition update_row (pk : nat) (f : Msg -> Msg) : M unit :=
  modify (set_msgs (alter f pk)).

(** ** The message model *)

(** The three status methods of [Msg], as what they do to the fetched
    object before it is saved. *)
Class MsgModel := {
  status_sent : Msg -> Msg;
  status_delivered : Msg -> Msg;
  fail : Msg -> Msg;
}.

Definition sent_from : list Status := [PENDING; QUEUED; WIRED].

(** Modelled from the spec: [Msg.status_sent], [Msg.status_delivered]
    and [Msg.fail] of temba/msgs/models.py, which is not among the
    sources. Section 4.4: to SENT only if the current status is PENDING,
    QUEUED or WIRED; to DELIVERED unconditionally; to FAILED
    unconditionally. *)
Definition spec_status_sent (m : Msg) : Msg :=
  if bool_decide (status m ∈ sent_from) then with_status SENT m else m.
Definition spec_status_delivered (m : Msg) : Msg := with_status DELIVERED m.
Definition spec_fail (m : Msg) : Msg := with_status FAILED m.

Definition spec_model : MsgModel :=
  {| status_sent := spec_status_sent;
     status_delivered := spec_status_delivered;
     fail := spec_fail |}.

Module URN.
(** Modelled from the spec: [URN.from_tel] and its siblings of
    temba/contacts/models.py; a URN is a scheme and a path, the path
    taken verbatim. *)
Definition from_parts (scheme path : string) : string :=
  scheme +:+ ":" +:+ path.
Definition from_tel (path : string) : string := from_parts "tel" path.
Definition from_facebook (path : string) : string := from_parts "facebook" path.
Definition from_telegram (path : string) : string := from_parts "telegram" path.
Definition from_line (path : string) : string := from_parts "line" path.

(** Modelled from the spec: [URN.to_parts]; the scheme is what
    precedes the first colon, the path what follows, and a URN
    without either is rejected. *)
Fixpoint split_colon (s : string) : option (string * string) :=
  match s with
  | EmptyString => None
  | String c r =>
      if Ascii.eqb c ":" then Some (EmptyString, r)
      else match split_colon r with
           | Some (a, b) => Some (String c a, b)
           | None => None
           end
  end.
Definition to_parts (urn : string) : option (string * string) :=
  match split_colon urn with
  | Some (a, b) =>
      if (String.eqb a "" || String.eqb b "")%bool then None else Some (a, b)
  | None => None
  end.
End URN.

Module MsgMethods.
Section methods.
Context `{!MsgModel}.

(** [obj.status_sent()] and the like: the method changes the fetched
    object and saves it over its row. *)
Definition obj_status_sent (o : MsgObj) : M unit :=
  update_row o.1 (fun _ => status_sent o.2).
Definition obj_status_delivered (o : MsgObj) : M unit :=
  update_row o.1 (fun _ => status_delivered o.2).
(** Section 4.4: failing also notifies a collaborator. *)
Definition obj_fail (o : MsgObj) : M unit :=
  update_row o.1 (fun _ => fail o.2) ;; emit (EvMsgFailed o.1).

End methods.

Definition has_contact (o : nat) (urn : string) (st : State) : bool :=
  existsb (fun c => (Nat.eqb (contact_org c) o && String.eqb (contact_urn c) urn)%bool)
          (contacts st).

(** Modelled from the spec: the contact resolution of
    [Msg.create_incoming]. Section 3: the contact of a URN is created
    on first sight, unless the organization is anonymous. *)
Definition resolve_contact (channel : Channel) (urn : string) (st : State) : State :=
  match org channel with
  | Some o =>
      if (has_contact (org_id o) urn st || is_anon o)%bool then st
      else add_contact {| contact_org := org_id o; contact_urn := urn;
                          contact_name := None |} st
  | None => st
  end.

(** Modelled from the spec: [Msg.create_incoming] of
    temba/msgs/models.py. Section 4.4: the contact of the URN is
    resolved; a new inbound message gets a server-assigned id; its
    timestamp is the receipt time when the caller passes none; the
    handling of the new message is enqueued. *)
Definition create_incoming (request : HttpRequest) (channel : Channel)
    (urn : string) (text : option string) (date : option datetime)
    (media_ : option string) (status_ : Status) : M MsgObj :=
  fun st =>
    let st1 := resolve_contact channel urn st in
    let pk := S (max_pk (msgs st1)) in
    let row :=
      {| msg_channel := Some (channel_id channel); msg_org := org channel;
         msg_urn := urn; msg_text := text; direction := INCOMING;
         status := status_; external_id := None;
         created_on := default (now request) date;
         media := media_; broadcast := None |} in
    (Normal (pk, row), add_event (EvHandleMsg pk) (set_msgs (insert pk row) st1)).

End MsgMethods.
Export MsgMethods.

(** ** Libraries and collaborators outside the handlers

    The Twilio client library, the parsers of [datetime], Django and
    temba.utils, the settings and the constants of the models: what the
    handlers call but do not define. *)
Class Collab := {
  (** settings *)
  TEMBA_HOST : string;
  HOSTNAME : string;
  MAGE_AUTH_TOKEN : string;
  (** constants of temba.channels.models and temba.orgs.models *)
  CONFIG_API_ID : string;
  CONFIG_AUTH_TOKEN : string;
  GET_STARTED : string;
  NEXMO_UUID : string;
  (** [RequestValidator(token).validate(url, post, signature)] *)
  validate : string -> string -> gmap string string -> string -> bool;
  (** [client.auth[1]] of [channel.get_ivr_client()] and of
      [org.get_twilio_client()]; [None] when there is no client *)
  get_ivr_client : Channel -> option string;
  get_twilio_client : Org -> option string;
  is_connected_to_twilio : Org -> bool;
  download_media : string -> string;
  twiml_say_hangup : string -> string;
  (** [URN.normalize_number(number, country)] *)
  normalize_number : string -> string -> string * bool;
  (** [Trigger.find_flow_for_inbound_call] and [Flow.handle_call] *)
  find_flow_for_inbound_call : string -> option nat;
  handle_call : nat -> string;
  (** [datetime.strptime(text, format)]; [None] is [ValueError] *)
  strptime : string -> string -> option datetime;
  (** [parse_datetime]: [None] is [ValueError], [Some None] is the
      [None] it returns for text that is not well formatted *)
  parse_datetime : string -> option (option datetime);
  json_date_to_datetime : string -> option datetime;
  ms_to_datetime : Z -> datetime;
  utcfromtimestamp : Z -> option datetime;
  py_float : string -> option Z;
  gsm7_decode : string -> string;
  (** Clickatell's re-encodings; [None] when the conversion raises *)
  from_utf16be : string -> option string;
  from_latin1 : string -> string;
  (** [unicode(v)] of a JSON number, boolean, list or dictionary *)
  py_str : JSON -> string;
  (** the text of the exception [json.loads] raises on this body *)
  json_error : HttpRequest -> string;
  (** [datetime.fromtimestamp(ms / 1000.0)] *)
  fromtimestamp_ms : Z -> option datetime;
  (** the text of the [ValueError] that [URN.to_parts] raises *)
  to_parts_error : string -> string;
  (** the name Facebook's graph API gives for a user id, when it answers *)
  fb_lookup_name : Channel -> string -> option string;
}.

(** ** Helpers shared by the handlers *)

Definition contains (sub s : string) : bool :=
  match String.index 0 sub s with
  | Some _ => true
  | None => false
  end.

(** [s.partition(':')[2]]. *)
Fixpoint after_colon (s : string) : string :=
  match s with
  | EmptyString => EmptyString
  | String c r => if Ascii.eqb c ":" then r else after_colon r
  end.

(** [d[key]] on a [QueryDict] or a config dictionary. *)
Definition getitem (d : gmap string string) (key : string) : M string :=
  match d !! key with
  | Some v => ret v
  | None => raise (KeyError key)
  end.

(** Modelled from the spec: [Contact.from_urn] and
    [Contact.get_or_create] of temba/contacts/models.py; the same URN
    resolves to the same contact within an organization, created on
    first sight. *)
Definition Contact_from_urn (o : Org) (urn : string) : M bool :=
  fun st => (Normal (has_contact (org_id o) urn st), st).

Definition Contact_get_or_create (o : Org) (name : option string)
    (urn : string) : M unit :=
  modify (fun st =>
    if has_contact (org_id o) urn st then st
    else add_contact {| contact_org := org_id o; contact_urn := urn;
                        contact_name := name |} st).

(** [s.split(sep)] for a one-character separator. *)
Fixpoint split_on (sep : ascii) (s : string) : list string :=
  match s with
  | EmptyString => [EmptyString]
  | String c r =>
      if Ascii.eqb c sep then EmptyString :: split_on sep r
      else match split_on sep r with
           | w :: ws => String c w :: ws
           | [] => [String c EmptyString]
           end
  end.

(** *** JSON bodies: a dictionary is its list of fields, keys distinct *)

Fixpoint assoc {A} (key : string) (l : list (string * A)) : option A :=
  match l with
  | [] => None
  | (k, v) :: r => if String.eqb k key then Some v else assoc key r
  end.

(** [key in body]: a key of a dictionary, an item of a list, a
    substring of a string; [TypeError] otherwise. *)
Definition has_key (key : string) (body : JSON) : M bool :=
  match body with
  | JObj fields => ret (bool_decide (is_Some (assoc key fields)))
  | JArr items =>
      ret (existsb (fun i => match i with JStr s => String.eqb s key | _ => false end)
                   items)
  | JStr s => ret (contains key s)
  | _ => raise TypeError
  end.

(** [body[key]]. *)
Definition jitem (key : string) (body : JSON) : M JSON :=
  match body with
  | JObj fields => match assoc key fields with
                   | Some v => ret v
                   | None => raise (KeyError key)
                   end
  | _ => raise TypeError
  end.

(** [body.get(key)]. *)
Definition jget (key : string) (body : JSON) : M (option JSON) :=
  match body with
  | JObj fields => ret (assoc key fields)
  | _ => raise AttributeError
  end.

Definition jis_str (v : JSON) (lit : string) : bool :=
  match v with
  | JStr s => String.eqb s lit
  | _ => false
  end.

(** Truth value of a JSON value. *)
Definition jtruthy (v : JSON) : bool :=
  match v with
  | JNull => false
  | JBool b => b
  | JNum n => negb (Z.eqb n 0)
  | JStr s => negb (String.eqb s "")
  | JArr l => match l with [] => false | _ => true end
  | JObj l => match l with [] => false | _ => true end
  end.

(** [for x in body]: the items of a list, the keys of a dictionary. *)
Definition jiter (v : JSON) : M (list JSON) :=
  match v with
  | JArr items => ret items
  | JObj fields => ret (JStr <$> fields.*1)
  | _ => raise TypeError
  end.

(** [all(k in body for k in keys)]. *)
Fixpoint has_keys (keys : list string) (body : JSON) : M bool :=
  match keys with
  | [] => ret true
  | k :: r => let* b := has_key k body in
              if b then has_keys r body else ret false
  end.

(** [sep.join(l)]. *)
Fixpoint join (sep : string) (l : list string) : string :=
  match l with
  | [] => ""
  | [x] => x
  | x :: r => x +:+ sep +:+ join sep r
  end.

(** A loop that carries a value along. *)
Fixpoint fold_m {A S} (l : list A) (body : A -> S -> M S) (acc : S) : M S :=
  match l with
  | [] => ret acc
  | x :: r => let* acc' := body x acc in fold_m r body acc'
  end.

(** [sms.channel] and [org.channels.filter(channel_type=...).first()]. *)
Definition channel_of (m : Msg) : M (option Channel) :=
  match msg_channel m with
  | Some i => first_channel (fun c => Nat.eqb (channel_id c) i)
  | None => ret None
  end.

Definition has_org (o : Org) (c : Channel) : bool :=
  match org c with
  | Some o' => Nat.eqb (org_id o') (org_id o)
  | None => false
  end.

(** The query every uuid-routed handler starts with:
    [filter(uuid=..., is_active=True, channel_type=...).exclude(org=None)]. *)
Definition by_uuid (u type_ : string) (c : Channel) : bool :=
  (String.eqb (uuid c) u && is_active c && String.eqb (channel_type c) type_
   && bool_decide (org c <> None))%bool.

Module KannelHandler.
Section handler.
Context `{!MsgModel}.
Import BaseChannelHandler.

Definition STATUS_CHOICES (code : option string) : option Status :=
  match code with
  | Some "1" => Some DELIVERED
  | Some "2" => Some FAILED
  | Some "4" => Some SENT
  | Some "8" => Some SENT
  | Some "16" => Some FAILED
  | _ => None
  end.

Definition post (request : HttpRequest) (kwargs : Kwargs) : M HttpResponse :=
  let action := lower (kw_action kwargs) in
  let request_uuid := kw_uuid kwargs in
  let* channel := first_channel (by_uuid request_uuid TYPE_KANNEL) in
  match channel with
  | None => return_ (Http ("Channel not found for id: " +:+ request_uuid) 400)
  | Some channel =>
  if String.eqb action "status" then
    let sms_id := get_param request "id" None in
    let status_code := get_param request "status" None in
    if (negb (truthy sms_id) && negb (truthy status_code))%bool then
      return_ (Http "Missing one of 'id' or 'status' in request parameters." 400)
    else
    let* id_ := pk_value sms_id in
    let sms : QuerySet := qs_and (channel_is channel) (pk_is id_) in
    let* sms_rows := fetch sms in
    match sms_rows with
    | [] => return_ (Http ("Message with external id of '" +:+ fmt_s sms_id
                             +:+ "' not found") 400)
    | _ =>
    match STATUS_CHOICES status_code with
    | None => return_ (Http ("Unrecognized status code: '" +:+ fmt_s status_code
                               +:+ "', ignoring message.") 401)
    | Some status_ =>
      (if bool_decide (status_ = SENT) then
         let* l := fetch (qs_and sms (status_in [PENDING; QUEUED; WIRED])) in
         for_each l obj_status_sent
       else if bool_decide (status_ = DELIVERED) then
         for_each sms_rows obj_status_delivered
       else if bool_decide (status_ = FAILED) then
         for_each sms_rows obj_fail
       else ret tt) ;;
      return_ (Http "SMS Status Updated" 200)
    end
    end
  else if String.eqb action "receive" then
    let sms_id := get_param request "id" None in
    let sms_ts := get_param request "ts" None in
    let sms_message := get_param request "message" None in
    let sms_sender := get_param request "sender" None in
    match sms_id, sms_ts, sms_message, sms_sender with
    | Some sms_id, Some sms_ts, Some sms_message, Some sms_sender =>
      match py_int sms_ts with
      | None => raise ValueError
      | Some _ =>
        let urn := URN.from_tel sms_sender in
        let* sms := create_incoming request channel urn (Some sms_message)
                      None None PENDING in
        update_row sms.1 (with_external_id (Some sms_id)) ;;
        return_ (Http ("SMS Accepted: " +:+ pretty sms.1) 200)
      end
    | _, _, _, _ =>
      return_ (Http "Missing one of 'message', 'sender', 'id' or 'ts' in request parameters." 400)
    end
  else
    return_ (Http "Not handled" 400)
  end.

Definition get := post.

End handler.
End KannelHandler.

(** The overridable methods of [TwimlAPIHandler]. *)
Class TwimlMethods := {
  get_channel_type : string;
  get_receive_channel : string -> option string -> M (option Channel);
}.

Module TwimlAPIHandler.
Section handler.
Context `{!MsgModel, !Collab, !TwimlMethods}.
Import BaseChannelHandler.

Definition get_ringing_channel (to_number : string) : M (option Channel) :=
  first_channel (fun c =>
    (bool_decide (address c = Some to_number)
     && String.eqb (channel_type c) get_channel_type
     && contains "A" (role c) && is_active c
     && bool_decide (org c <> None))%bool).

Definition get_client (channel : option Channel) : M string :=
  match channel with
  | None => raise AttributeError
  | Some channel =>
    let client :=
      if String.eqb (channel_type channel) TYPE_TWILIO_MESSAGING_SERVICE then
        match org channel with
        | Some o => get_twilio_client o
        | None => None
        end
      else get_ivr_client channel in
    match client with
    | Some token => ret token
    | None => raise AttributeError
    end
  end.

Definition org_of (channel : Channel) : M Org :=
  match org channel with
  | Some o => ret o
  | None => raise AttributeError
  end.

(** The branch for a ringing inbound call; it falls through when the
    request is not one or its signature does not validate. *)
Definition ringing (request : HttpRequest) (url signature : string)
    (to_number call_sid direction status_ from_number : option string)
    : M unit :=
  if (truthy to_number && truthy call_sid && is_str direction "inbound"
      && is_str status_ "ringing")%bool then
    let* channel := get_ringing_channel (default "" to_number) in
    match channel with
    | None => return_ (Http (twiml_say_hangup
                "Sorry, there is no channel configured to take this call. Goodbye.") 200)
    | Some channel =>
      let* o := org_of channel in
      if (String.eqb get_channel_type TYPE_TWILIO
          && negb (is_connected_to_twilio o))%bool then
        return_ (Http "No Twilio account is connected" 400)
      else
      let* token := get_client (Some channel) in
      let signature := default "" (META request !! "HTTP_X_TWILIO_SIGNATURE") in
      let url := "https://" +:+ TEMBA_HOST +:+ full_path request in
      if validate token url (POST request) signature then
        let urn := URN.from_tel (fmt_s from_number) in
        Contact_get_or_create o None urn ;;
        match find_flow_for_inbound_call urn with
        | Some flow =>
          emit (EvIncomingCall (channel_id channel) urn flow) ;;
          return_ (Http (handle_call flow) 200)
        | None =>
          emit (EvTrigger "missed_call" urn (channel_id channel)) ;;
          return_ (Http (twiml_say_hangup "") 200)
        end
      else ret tt
    end
  else ret tt.

Definition post (request : HttpRequest) (kwargs : Kwargs) : M HttpResponse :=
  let signature := default "" (META request !! "HTTP_X_TWILIO_SIGNATURE") in
  let url := "https://" +:+ TEMBA_HOST +:+ full_path request in
  let call_sid := get_param request "CallSid" None in
  let direction := get_param request "Direction" None in
  let status_ := get_param request "CallStatus" None in
  let to_number := get_param request "To" None in
  let to_country := get_param request "ToCountry" None in
  let from_number := get_param request "From" None in
  match to_number with
  | None => raise AttributeError
  | Some to_number0 =>
  let to_number :=
    if (negb (startswith "+" to_number0) && truthy to_country)%bool then
      (normalize_number to_number0 (default "" to_country)).1
    else to_number0 in
  ringing request url signature (Some to_number) call_sid direction status_
          from_number ;;
  let action := default "received" (GET request !! "action") in
  let channel_uuid := kw_uuid kwargs in
  if String.eqb action "callback" then
    let smsId := GET request !! "id" in
    let status_ := POST request !! "SmsStatus" in
    let* id_ := pk_value smsId in
    let* sms := fetch_first (pk_is id_) in
    match sms with
    | None => return_ (Http ("No message found with id: " +:+ fmt_s smsId) 400)
    | Some sms =>
      let* o := match msg_org sms.2 with
                | Some o => ret o
                | None => raise AttributeError
                end in
      if (bool_decide (get_channel_type ∈
            [TYPE_TWILIO; TYPE_TWIML; TYPE_TWILIO_MESSAGING_SERVICE])
          && negb (is_connected_to_twilio o))%bool then
        return_ (Http "No Twilio account is connected" 400)
      else
      let* channel := channel_of sms.2 in
      let* channel :=
        match channel with
        | Some c => ret (Some c)
        | None => first_channel (fun c =>
            (has_org o c && String.eqb (channel_type c) get_channel_type)%bool)
        end in
      let* token := get_client channel in
      if negb (validate token url (POST request) signature) then
        raise (ValidationError "Invalid request signature")
      else
      (if is_str status_ "sent" then obj_status_sent sms
       else if is_str status_ "delivered" then obj_status_delivered sms
       else if is_str status_ "failed" then obj_fail sms
       else ret tt) ;;
      return_ (Http "" 200)
    end
  else if String.eqb action "received" then
    let* channel := get_receive_channel channel_uuid (Some to_number) in
    match channel with
    | None => return_ (Http ("No active channel found for number: " +:+ to_number) 400)
    | Some channel =>
      let* o := org_of channel in
      if (String.eqb get_channel_type TYPE_TWILIO
          && negb (is_connected_to_twilio o))%bool then
        return_ (Http "No Twilio account is connected" 400)
      else
      let* token := get_client (Some channel) in
      if negb (validate token url (POST request) signature) then
        raise (ValidationError "Invalid request signature")
      else
      let* body := getitem (POST request) "Body" in
      let* from_ := getitem (POST request) "From" in
      let urn := URN.from_tel from_ in
      let* num_media :=
        match POST request !! "NumMedia" with
        | None => ret 0
        | Some n => match py_int n with
                    | Some n => ret n
                    | None => raise ValueError
                    end
        end in
      for_each (seq 0 (Z.to_nat num_media)) (fun i =>
        let* u := getitem (POST request) ("MediaUrl" +:+ pretty i) in
        let media_url := download_media u in
        let path := after_colon media_url in
        create_incoming request channel urn (Some path) None (Some media_url)
                        PENDING ;;
        ret tt) ;;
      (if negb (String.eqb body "") then
         create_incoming request channel urn (Some body) None None PENDING ;;
         ret tt
       else ret tt) ;;
      return_ (Http "" 201)
    end
  else
    return_ (Http "Not Handled, unknown action" 400)
  end.

Definition get (request : HttpRequest) (kwargs : Kwargs) : M HttpResponse :=
  return_ (Http "ILLEGAL METHOD" 200).

End handler.

Definition methods : TwimlMethods :=
  {| get_channel_type := TYPE_TWIML;
     get_receive_channel := fun channel_uuid to_number =>
       first_channel (fun c =>
         (String.eqb (uuid c) channel_uuid && is_active c
          && String.eqb (channel_type c) TYPE_TWIML
          && bool_decide (org c <> None))%bool) |}.

End TwimlAPIHandler.

(** [TwilioHandler] inherits [post] and overrides the two methods. *)
Module TwilioHandler.
Definition methods : TwimlMethods :=
  {| get_channel_type := TYPE_TWILIO;
     get_receive_channel := fun channel_uuid to_number =>
       first_channel (fun c =>
         (bool_decide (address c = to_number) && is_active c
          && bool_decide (org c <> None))%bool) |}.
End TwilioHandler.

Module TwilioMessagingServiceHandler.
Section handler.
Context `{!Collab}.

Definition post (request : HttpRequest) (kwargs : Kwargs) : M HttpResponse :=
  let signature := default "" (META request !! "HTTP_X_TWILIO_SIGNATURE") in
  let url := "https://" +:+ HOSTNAME +:+ full_path request in
  let action := kw_action kwargs in
  let channel_uuid := kw_uuid kwargs in
  let* channel := first_channel (by_uuid channel_uuid TYPE_TWILIO_MESSAGING_SERVICE) in
  match channel with
  | None => return_ (Http ("Channel with uuid: " +:+ channel_uuid +:+ " not found.") 404)
  | Some channel =>
  if String.eqb action "receive" then
    let* o := match org channel with
              | Some o => ret o
              | None => raise AttributeError
              end in
    if negb (is_connected_to_twilio o) then
      return_ (Http "No Twilio account is connected" 400)
    else
    let* token := match get_twilio_client o with
                  | Some t => ret t
                  | None => raise AttributeError
                  end in
    if negb (validate token url (POST request) signature) then
      raise (ValidationError "Invalid request signature")
    else
    let* from_ := getitem (POST request) "From" in
    let* body := getitem (POST request) "Body" in
    create_incoming request channel (URN.from_tel from_) (Some body) None None
                    PENDING ;;
    return_ (Http "" 201)
  else
    return_ (Http "Not Handled, unknown action" 400)
  end.

Definition get := post.

End handler.
End TwilioMessagingServiceHandler.

(** A JSON value as a lookup value or a message text: [null] is
    [None], a string is itself, anything else its [unicode()]. *)
Definition jvalue `{!Collab} (v : JSON) : option string :=
  match v with
  | JNull => None
  | JStr s => Some s
  | _ => Some (py_str v)
  end.

(** [queryset.update(...)]: every row the filter selects now. *)
Definition qs_update (q : QuerySet) (f : Msg -> Msg) : M unit :=
  let* l := fetch q in for_each l (fun o => update_row o.1 f).

Module MageHandler.
Section handler.
Context `{!Collab}.

Definition get (request : HttpRequest) (kwargs : Kwargs) : M HttpResponse :=
  return_ (Http (Json (JObj [("error", JStr "Illegal method, must be POST")])) 405).

Definition post (request : HttpRequest) (kwargs : Kwargs) : M HttpResponse :=
  let authorization :=
    split_on " " (default "" (META request !! "HTTP_AUTHORIZATION")) in
  if (negb (Nat.eqb (length authorization) 2)
      || negb (bool_decide (authorization !! 0%nat = Some "Token"))
      || negb (bool_decide (authorization !! 1%nat = Some MAGE_AUTH_TOKEN)))%bool then
    return_ (Http (Json (JObj [("error", JStr "Incorrect authentication token")])) 401)
  else
  let action := lower (kw_action kwargs) in
  let new_contact :=
    bool_decide (lower (default "" (POST request !! "new_contact")) ∈ ["true"; "1"]) in
  (if String.eqb action "handle_message" then
     match py_int (default "" (POST request !! "message_id")) with
     | None => return_ (Http (Json (JObj [("error", JStr "Invalid message_id")])) 400)
     | Some msg_id =>
       let* msg := fetch_first (pk_is (Some msg_id)) in
       match msg with
       | None => raise DoesNotExist
       | Some msg => emit (EvPushTask msg.1 new_contact) ;; emit (EvWebHook msg.1)
       end
     end
   else if String.eqb action "follow_notification" then
     match py_int (default "" (POST request !! "channel_id")),
           py_int (default "" (POST request !! "contact_urn_id")) with
     | Some channel_id, Some contact_urn_id =>
       emit (EvFollowTriggers channel_id contact_urn_id new_contact)
     | _, _ =>
       return_ (Http (Json (JObj [("error", JStr "Invalid channel or contact URN id")])) 400)
     end
   else ret tt) ;;
  return_ (Http (Json (JObj [("error", JNull)])) 200).

End handler.
End MageHandler.

Module AfricasTalkingHandler.
Section handler.
Context `{!MsgModel}.

Definition get (request : HttpRequest) (kwargs : Kwargs) : M HttpResponse :=
  return_ (Http "ILLEGAL METHOD" 400).

Definition post (request : HttpRequest) (kwargs : Kwargs) : M HttpResponse :=
  let action := kw_action kwargs in
  let channel_uuid := kw_uuid kwargs in
  let* channel := first_channel (by_uuid channel_uuid TYPE_AFRICAS_TALKING) in
  match channel with
  | None => return_ (Http ("Channel with uuid: " +:+ channel_uuid +:+ " not found.") 404)
  | Some channel =>
  if String.eqb action "delivery" then
    match POST request !! "status", POST request !! "id" with
    | Some status_, Some external_id_ =>
      let* sms := fetch_first (qs_and (channel_is channel)
                                      (external_id_is (Some external_id_))) in
      match sms with
      | None => return_ (Http ("No SMS message with id: " +:+ external_id_) 404)
      | Some sms =>
        (if String.eqb status_ "Success" then obj_status_delivered sms
         else if (String.eqb status_ "Sent" || String.eqb status_ "Buffered")%bool then
           obj_status_sent sms
         else if (String.eqb status_ "Rejected" || String.eqb status_ "Failed")%bool then
           obj_fail sms
         else ret tt) ;;
        return_ (Http "SMS Status Updated" 200)
      end
    | _, _ => return_ (Http "Missing status or id parameters" 400)
    end
  else if String.eqb action "callback" then
    match POST request !! "from", POST request !! "text" with
    | Some from_, Some text_ =>
      let* sms := create_incoming request channel (URN.from_tel from_) (Some text_)
                    None None PENDING in
      return_ (Http ("SMS Accepted: " +:+ pretty sms.1) 200)
    | _, _ => return_ (Http "Missing from or text parameters" 400)
    end
  else
    return_ (Http "Not handled" 400)
  end.

End handler.
End AfricasTalkingHandler.

Module ZenviaHandler.
Section handler.
Context `{!MsgModel, !Collab}.
Import BaseChannelHandler.

Definition post (request : HttpRequest) (kwargs : Kwargs) : M HttpResponse :=
  let action := kw_action kwargs in
  let channel_uuid := kw_uuid kwargs in
  let* channel := first_channel (by_uuid channel_uuid TYPE_ZENVIA) in
  match channel with
  | None => return_ (Http ("Channel with uuid: " +:+ channel_uuid +:+ " not found.") 404)
  | Some channel =>
  if String.eqb action "status" then
    match get_param request "status" None, get_param request "id" None with
    | Some status_, Some sms_id =>
      match py_int status_ with
      | None => raise ValueError
      | Some status_ =>
        let* id_ := pk_value (Some sms_id) in
        let* sms := fetch_first (qs_and (channel_is channel) (pk_is id_)) in
        match sms with
        | None => return_ (Http ("No SMS message with id: " +:+ sms_id) 404)
        | Some sms =>
          (if Z.eqb status_ 120 then obj_status_delivered sms
           else if Z.eqb status_ 111 then obj_status_sent sms
           else obj_fail sms) ;;
          return_ (Http "SMS Status Updated" 200)
        end
      end
    | _, _ => return_ (Http "Missing parameters, requires 'status' and 'id'" 400)
    end
  else if String.eqb action "receive" then
    match get_param request "date" None, get_param request "from" None,
          get_param request "msg" None with
    | Some sms_date, Some from_tel, Some msg =>
      (* dates come in the format 31/07/2013 14:45:00 *)
      match strptime sms_date "%d/%m/%Y %H:%M:%S" with
      | None => raise ValueError
      | Some sms_date =>
        let brazil_date := replace_tzinfo "America/Sao_Paulo" sms_date in
        let urn := URN.from_tel from_tel in
        let* sms := create_incoming request channel urn (Some msg)
                      (Some brazil_date) None PENDING in
        return_ (Http ("SMS Accepted: " +:+ pretty sms.1) 200)
      end
    | _, _, _ =>
      return_ (Http "Missing parameters, requires 'from', 'date' and 'msg'" 400)
    end
  else
    return_ (Http "Not handled" 400)
  end.

Definition get := post.

End handler.
End ZenviaHandler.

(** The channel lookup of [ExternalHandler]. *)
Definition external_channel (type_ u : string) (c : Channel) : bool :=
  ((if Nat.eqb (String.length u) 36 then String.eqb (uuid c) u
    else (bool_decide (address c = Some u)
          || bool_decide (address c = Some ("+" +:+ u)))%bool)
   && is_active c && String.eqb (channel_type c) type_
   && bool_decide (org c <> None))%bool.

Module ExternalHandler.
Section handler.
Context `{!MsgModel, !Collab}.
Import BaseChannelHandler.

(** The overridable [get_channel_type]. *)
Variable get_channel_type : string.

Definition post (request : HttpRequest) (kwargs : Kwargs) : M HttpResponse :=
  let action := lower (kw_action kwargs) in
  (* some external channels that have been added as bulk relayers had
     UUID set to their phone number *)
  let uuid_or_address := kw_uuid kwargs in
  let* channel := first_channel (external_channel get_channel_type uuid_or_address) in
  match channel with
  | None => return_ (Http ("Channel with uuid or address " +:+ uuid_or_address
                             +:+ " not found.") 400)
  | Some channel =>
  if (String.eqb action "delivered" || String.eqb action "failed"
      || String.eqb action "sent")%bool then
    match get_param request "id" None with
    | None => return_ (Http "Missing 'id' parameter, invalid call." 400)
    | Some sms_pk =>
      let* id_ := pk_value (Some sms_pk) in
      let* sms := fetch_first (qs_and (channel_is channel) (pk_is id_)) in
      match sms with
      | None => return_ (Http ("No SMS message with id: " +:+ sms_pk) 400)
      | Some sms =>
        (if String.eqb action "delivered" then obj_status_delivered sms
         else if String.eqb action "sent" then obj_status_sent sms
         else if String.eqb action "failed" then obj_fail sms
         else ret tt) ;;
        return_ (Http "SMS Status Updated" 200)
      end
    end
  else if String.eqb action "received" then
    let sender := get_param request "from" (get_param request "sender" None) in
    if negb (truthy sender) then
      return_ (Http "Missing 'from' or 'sender' parameter, invalid call." 400)
    else
    match get_param request "text" (get_param request "message" None) with
    | None => return_ (Http "Missing 'text' or 'message' parameter, invalid call." 400)
    | Some text_ =>
      (* handlers can optionally specify the date/time of the message *)
      let date := get_param request "date" (get_param request "time" None) in
      let* date :=
        if truthy date then
          match json_date_to_datetime (default "" date) with
          | Some d => ret (Some d)
          | None => raise ValueError
          end
        else ret None in
      let urn := URN.from_parts (scheme channel) (default "" sender) in
      let* sms := create_incoming request channel urn (Some text_) date None
                    PENDING in
      return_ (Http ("SMS Accepted: " +:+ pretty sms.1) 200)
    end
  else
    return_ (Http "Not handled" 400)
  end.

Definition get := post.

End handler.
End ExternalHandler.

Module InfobipHandler.
Section handler.
Context `{!MsgModel}.
Import BaseChannelHandler.

Definition find (tag_ : string) (e : Element) : option Element :=
  match e with
  | Elem _ _ _ children =>
      List.find (fun c => match c with Elem t _ _ _ => String.eqb t tag_ end) children
  end.

Definition attr (name : string) (e : Element) : option string :=
  match e with
  | Elem _ attrib _ _ => assoc name attrib
  end.

Definition post (request : HttpRequest) (kwargs : Kwargs) : M HttpResponse :=
  let channel_uuid := kw_uuid kwargs in
  let* channel := first_channel (by_uuid channel_uuid TYPE_INFOBIP) in
  match channel with
  | None => return_ (Http ("Channel with uuid: " +:+ channel_uuid +:+ " not found.") 404)
  | Some channel =>
    match body_xml request with
    | None => raise ParseError
    | Some root =>
      match find "message" root with
      | None => raise AttributeError
      | Some message =>
        let external_id_ := attr "id" message in
        let status_ := attr "status" message in
        let* sms := fetch_first (qs_and (channel_is channel)
                                        (external_id_is external_id_)) in
        match sms with
        | None => return_ (Http ("No SMS message with external id: "
                                   +:+ fmt_s external_id_) 404)
        | Some sms =>
          (if is_str status_ "DELIVERED" then obj_status_delivered sms
           else if is_str status_ "SENT" then obj_status_sent sms
           else if bool_decide (status_ ∈
                     (Some <$> ["NOT_SENT"; "NOT_ALLOWED"; "INVALID_DESTINATION_ADDRESS";
                                "INVALID_SOURCE_ADDRESS"; "ROUTE_NOT_AVAILABLE";
                                "NOT_ENOUGH_CREDITS"; "REJECTED";
                                "INVALID_MESSAGE_FORMAT"])) then
             obj_fail sms
           else ret tt) ;;
          return_ (Http "SMS Status Updated" 200)
        end
      end
    end
  end.

Definition get (request : HttpRequest) (kwargs : Kwargs) : M HttpResponse :=
  let action := lower (kw_action kwargs) in
  let channel_uuid := kw_uuid kwargs in
  match get_param request "sender" None, get_param request "text" None,
        get_param request "receiver" None with
  | Some sender, Some text_, Some receiver =>
    let* channel := first_channel (by_uuid channel_uuid TYPE_INFOBIP) in
    match channel with
    | None => return_ (Http ("Channel with uuid: " +:+ channel_uuid +:+ " not found.") 404)
    | Some channel =>
      (* validate this is not a delivery report, those must be POSTs *)
      if String.eqb action "delivered" then
        return_ (Http "Illegal method, delivery reports must be POSTs" 401)
      (* make sure the channel number matches the receiver *)
      else if negb (bool_decide (address channel = Some ("+" +:+ receiver))) then
        return_ (Http ("Channel with uuid: " +:+ channel_uuid +:+ " not found.") 404)
      else
        let* sms := create_incoming request channel (URN.from_tel sender)
                      (Some text_) None None PENDING in
        return_ (Http ("SMS Accepted: " +:+ pretty sms.1) 200)
    end
  | _, _, _ =>
    return_ (Http "Missing parameters, must have 'sender', 'text' and 'receiver'" 400)
  end.

End handler.
End InfobipHandler.

Module Hub9Handler.
Section handler.
Context `{!MsgModel}.
Import BaseChannelHandler.

Definition get (request : HttpRequest) (kwargs : Kwargs) : M HttpResponse :=
  let channel_uuid := kw_uuid kwargs in
  let* channel := first_channel (by_uuid channel_uuid TYPE_HUB9) in
  match channel with
  | None => return_ (Http ("Channel with uuid: " +:+ channel_uuid +:+ " not found.") 404)
  | Some channel =>
  let action := lower (kw_action kwargs) in
  let message := get_param request "message" None in
  let external_id_ := get_param request "messageid" None in
  match (match get_param request "status" None with
         | None => Some (-1)
         | Some s => py_int s
         end) with
  | None => raise ValueError
  | Some status_ =>
  let from_number := get_param request "original" None in
  let to_number := get_param request "sendto" None in
  (* delivery reports *)
  if String.eqb action "delivered" then
    let* id_ := pk_value external_id_ in
    let* sms := fetch_first (qs_and (channel_is channel) (pk_is id_)) in
    match sms with
    | None => return_ (Http ("No SMS message with external id: "
                               +:+ fmt_s external_id_) 404)
    | Some sms =>
      (if (Z.leb 10 status_ && Z.leb status_ 12)%bool then obj_status_delivered sms
       else if Z.ltb 20 status_ then obj_fail sms
       else if negb (Z.eqb status_ (-1)) then obj_status_sent sms
       else ret tt) ;;
      return_ (Http "000" 200)
    end
  (* An MO message *)
  else if String.eqb action "received" then
    match to_number with
    | None => raise TypeError
    | Some to_number =>
      (* make sure the channel number matches the receiver *)
      if negb (bool_decide (address channel = Some ("+" +:+ to_number))) then
        return_ (Http ("Channel with number '" +:+ to_number +:+ "' not found.") 404)
      else
      match from_number with
      | None => raise TypeError
      | Some from_number =>
        create_incoming request channel (URN.from_tel ("+" +:+ from_number))
                        message None None PENDING ;;
        return_ (Http "000" 200)
      end
    end
  else
    return_ (Http ("Unreconized action: " +:+ action) 404)
  end
  end.

End handler.
End Hub9Handler.

Module HighConnectionHandler.
Section handler.
Context `{!MsgModel, !Collab}.
Import BaseChannelHandler.

Definition get (request : HttpRequest) (kwargs : Kwargs) : M HttpResponse :=
  let channel_uuid := kw_uuid kwargs in
  let* channel := first_channel (by_uuid channel_uuid TYPE_HIGH_CONNECTION) in
  match channel with
  | None => return_ (Http ("Channel with uuid: " +:+ channel_uuid +:+ " not found.") 400)
  | Some channel =>
  let action := lower (kw_action kwargs) in
  (* Update on the status of a sent message *)
  if String.eqb action "status" then
    let msg_id := get_param request "ret_id" None in
    match (match get_param request "status" None with
           | None => Some 0
           | Some s => py_int s
           end) with
    | None => raise ValueError
    | Some status_ =>
      let* id_ := pk_value msg_id in
      let* sms := fetch_first (qs_and (channel_is channel) (pk_is id_)) in
      match sms with
      | None => return_ (Http ("No SMS message with id: " +:+ fmt_s msg_id) 400)
      | Some sms =>
        (if Z.eqb status_ 4 then obj_status_sent sms
         else if Z.eqb status_ 6 then obj_status_delivered sms
         else if bool_decide (status_ ∈ [2; 11; 12; 13; 14; 15; 16]) then obj_fail sms
         else ret tt) ;;
        return_ (Http (Json (JObj [("msg", JStr "Status Updated")])) 200)
      end
    end
  (* An MO message *)
  else if String.eqb action "receive" then
    let to_number := get_param request "TO" None in
    let from_number := get_param request "FROM" None in
    let message := get_param request "MESSAGE" None in
    let received := get_param request "RECEPTION_DATE" None in
    (* dateformat for reception date is 2015-04-02T14:26:06 in UTC *)
    let* received :=
      match received with
      | None => ret (now request)
      | Some received =>
        match strptime received "%Y-%m-%dT%H:%M:%S" with
        | None => raise ValueError
        | Some raw_date => ret (replace_tzinfo "UTC" raw_date)
        end
      end in
    match to_number, from_number, message with
    | Some to_number, Some from_number, Some message =>
      let* msg := create_incoming request channel (URN.from_tel from_number)
                    (Some message) (Some received) None PENDING in
      return_ (Http (Json (JObj [("msg", JStr "Msg received");
                                 ("id", JNum (Z.of_nat msg.1))])) 200)
    | _, _, _ => return_ (Http "Missing TO, FROM or MESSAGE parameters" 400)
    end
  else
    return_ (Http ("Unrecognized action: " +:+ action) 400)
  end.

Definition post := get.

End handler.
End HighConnectionHandler.

Module BlackmynaHandler.
Section handler.
Context `{!MsgModel}.
Import BaseChannelHandler.

Definition get (request : HttpRequest) (kwargs : Kwargs) : M HttpResponse :=
  let channel_uuid := kw_uuid kwargs in
  let* channel := first_channel (by_uuid channel_uuid TYPE_BLACKMYNA) in
  match channel with
  | None => return_ (Http ("Channel with uuid: " +:+ channel_uuid +:+ " not found.") 400)
  | Some channel =>
  let action := lower (kw_action kwargs) in
  (* Update on the status of a sent message *)
  if String.eqb action "status" then
    let msg_id := get_param request "id" None in
    match (match get_param request "status" None with
           | None => Some 0
           | Some s => py_int s
           end) with
    | None => raise ValueError
    | Some status_ =>
      let* sms := fetch_first (qs_and (channel_is channel) (external_id_is msg_id)) in
      match sms with
      | None => return_ (Http ("No SMS message with id: " +:+ fmt_s msg_id) 400)
      | Some sms =>
        (if Z.eqb status_ 8 then obj_status_sent sms
         else if Z.eqb status_ 1 then obj_status_delivered sms
         else if bool_decide (status_ ∈ [2; 16]) then obj_fail sms
         else ret tt) ;;
        return_ (Http "" 200)
      end
    end
  (* An MO message *)
  else if String.eqb action "receive" then
    match get_param request "to" None, get_param request "from" None,
          get_param request "text" None with
    | Some to_number, Some from_number, Some message =>
      if negb (bool_decide (address channel = Some to_number)) then
        return_ (Http ("Invalid to number [" +:+ to_number +:+ "], expecting ["
                         +:+ fmt_s (address channel) +:+ "]") 400)
      else
        create_incoming request channel (URN.from_tel from_number) (Some message)
                        None None PENDING ;;
        return_ (Http "" 200)
    | _, _, _ => return_ (Http "Missing to, from or text parameters" 400)
    end
  else
    return_ (Http ("Unrecognized action: " +:+ action) 400)
  end.

Definition post := get.

End handler.
End BlackmynaHandler.

Module SMSCentralHandler.

Import BaseChannelHandler.

Definition get (request : HttpRequest) (kwargs : Kwargs) : M HttpResponse :=
  let channel_uuid := kw_uuid kwargs in
  let* channel := first_channel (by_uuid channel_uuid TYPE_SMSCENTRAL) in
  match channel with
  | None => return_ (Http ("Channel with uuid: " +:+ channel_uuid +:+ " not found.") 400)
  | Some channel =>
  let action := lower (kw_action kwargs) in
  (* An MO message *)
  if String.eqb action "receive" then
    match get_param request "mobile" None, get_param request "message" None with
    | Some from_number, Some message =>
      create_incoming request channel (URN.from_tel from_number) (Some message)
                      None None PENDING ;;
      return_ (Http "" 200)
    | _, _ => return_ (Http "Missing mobile or message parameters" 400)
    end
  else
    return_ (Http ("Unrecognized action: " +:+ action) 400)
  end.

Definition post := get.

End SMSCentralHandler.

Module NexmoHandler.
Section handler.
Context `{!MsgModel, !Collab}.
Import BaseChannelHandler.

Definition get (request : HttpRequest) (kwargs : Kwargs) : M HttpResponse :=
  let action := lower (kw_action kwargs) in
  let request_uuid := kw_uuid kwargs in
  (* crazy enough, for nexmo 'to' is the channel number for both
     delivery reports and new messages *)
  let channel_number := get_param request "to" None in
  let external_id_ := get_param request "messageId" None in
  (* nexmo fires a test request at our URL with no arguments, return
     200 so they take our URL as valid *)
  if ((String.eqb action "receive" && bool_decide (channel_number = None))
      || (String.eqb action "status" && bool_decide (external_id_ = None)))%bool then
    return_ (Http "No to parameter, ignoring" 200)
  else
  match channel_number with
  | None => raise TypeError
  | Some channel_number =>
  (* look up the channel *)
  let* channel := first_channel (fun c =>
    ((bool_decide (address c = Some channel_number)
      || bool_decide (address c = Some ("+" +:+ channel_number)))
     && is_active c && String.eqb (channel_type c) TYPE_NEXMO
     && bool_decide (org c <> None))%bool) in
  (* make sure we got one, and that it matches the key for our org *)
  let* org_uuid :=
    match channel with
    | Some c => match org c with
                | Some o => ret (org_config o !! NEXMO_UUID)
                | None => raise AttributeError
                end
    | None => ret None
    end in
  match channel with
  | None => return_ (Http ("Channel not found for number: " +:+ channel_number) 404)
  | Some channel =>
  if negb (bool_decide (org_uuid = Some request_uuid)) then
    return_ (Http ("Channel not found for number: " +:+ channel_number) 404)
  (* this is a callback for a message we sent *)
  else if String.eqb action "status" then
    let* sms := fetch_first (qs_and (channel_is channel)
                                    (external_id_is external_id_)) in
    match sms with
    | None => return_ (Http ("No SMS message with external id: "
                               +:+ fmt_s external_id_) 200)
    | Some sms =>
      let status_ := get_param request "status" None in
      (if is_str status_ "delivered" then obj_status_delivered sms
       else if (is_str status_ "accepted" || is_str status_ "buffered")%bool then
         obj_status_sent sms
       else if (is_str status_ "expired" || is_str status_ "failed")%bool then
         obj_fail sms
       else ret tt) ;;
      return_ (Http "SMS Status Updated" 200)
    end
  (* this is a new incoming message *)
  else if String.eqb action "receive" then
    let urn := URN.from_tel ("+" +:+ fmt_s (get_param request "msisdn" None)) in
    let* sms := create_incoming request channel urn (get_param request "text" None)
                  None None PENDING in
    update_row sms.1 (with_external_id external_id_) ;;
    return_ (Http ("SMS Accepted: " +:+ pretty sms.1) 200)
  else
    return_ (Http "Not handled" 400)
  end
  end.

Definition post := get.

End handler.
End NexmoHandler.

Module VumiHandler.
Section handler.
Context `{!MsgModel, !Collab}.

Definition get (request : HttpRequest) (kwargs : Kwargs) : M HttpResponse :=
  return_ (Http "Illegal method, must be POST" 405).

Definition post (request : HttpRequest) (kwargs : Kwargs) : M HttpResponse :=
  let action := lower (kw_action kwargs) in
  let request_uuid := kw_uuid kwargs in
  (* parse our JSON *)
  match body_json request with
  | None => return_ (Http ("Invalid JSON: " +:+ json_error request) 400)
  | Some body =>
  (* determine if it's a USSD session message or a regular SMS *)
  let* transport_name := jget "transport_name" body in
  let* in_name := has_key "ussd" (default (JStr "") transport_name) in
  let* transport_type := jget "transport_type" body in
  let is_ussd := (in_name || jis_str (default JNull transport_type) "ussd")%bool in
  let channel_type_ := if is_ussd then TYPE_VUMI_USSD else TYPE_VUMI in
  (* look up the channel *)
  let* channel := first_channel (by_uuid request_uuid channel_type_) in
  match channel with
  | None => return_ (Http ("Channel not found for id: " +:+ request_uuid) 404)
  | Some channel =>
  (* this is a callback for a message we sent *)
  if String.eqb action "event" then
    let* has_type := has_key "event_type" body in
    let* has_id := has_key "user_message_id" body in
    if (negb has_type && negb has_id)%bool then
      return_ (Http "Missing event_type or user_message_id, ignoring message" 400)
    else
    let* external_id_ := jitem "user_message_id" body in
    let* status_ := jitem "event_type" body in
    (* look up the message *)
    let message : QuerySet :=
      qs_and (channel_is channel) (external_id_is (jvalue external_id_)) in
    let* message_rows := fetch message in
    match message_rows with
    | [] => return_ (Http ("Message with external id of '"
                             +:+ fmt_s (jvalue external_id_) +:+ "' not found") 404)
    | first_row :: _ =>
    if negb (jis_str status_ "ack" || jis_str status_ "nack"
             || jis_str status_ "delivery_report")%bool then
      return_ (Http ("Unknown status '" +:+ fmt_s (jvalue status_) +:+ "', ignoring") 200)
    else
    (* only update to SENT status if still in WIRED state *)
    (if jis_str status_ "ack" then
       qs_update (qs_and message (status_in [PENDING; QUEUED; WIRED]))
                 (with_status SENT)
     else ret tt) ;;
    (if jis_str status_ "nack" then
       let* nack_reason := jget "nack_reason" body in
       if jis_str (default JNull nack_reason) "Unknown address." then
         emit (EvContactStop (msg_urn first_row.2))
       else ret tt
     else if jis_str status_ "delivery_report" then
       let* message := fetch_first message in
       match message with
       | None => ret tt
       | Some message =>
         let* delivery_status := jget "delivery_status" body in
         if jis_str (default (JStr "success") delivery_status) "failed" then
           (* Vumi and M-Tech disagree on what 'failed' means in a DLR,
              so for now, ignore these cases. *)
           ret tt
         else
           (* we should only mark it as delivered if it's in a wired
              state, we want to hold on to our delivery failures if any
              part of the message comes back as failed *)
           if bool_decide (status message.2 = WIRED) then
             obj_status_delivered message
           else ret tt
       end
     else ret tt) ;;
    return_ (Http "Message Status Updated" 200)
    end
  (* this is a new incoming message *)
  else if String.eqb action "receive" then
    let* a := has_key "timestamp" body in
    let* b := if a then ret true else has_key "from_addr" body in
    let* c := if b then ret true else has_key "content" body in
    let* d := if c then ret true else has_key "message_id" body in
    if negb d then
      return_ (Http "Missing one of timestamp, from_addr, content or message_id, ignoring message" 400)
    else
    (* dates come in the format "2014-04-18 03:54:20.570618" GMT *)
    let* timestamp := jitem "timestamp" body in
    let* message_date :=
      match timestamp with
      | JStr t => match strptime t "%Y-%m-%d %H:%M:%S.%f" with
                  | Some d => ret d
                  | None => raise ValueError
                  end
      | _ => raise TypeError
      end in
    let gmt_date := replace_tzinfo "GMT" message_date in
    let* session_event := jget "session_event" body in
    let status_ :=
      if jis_str (default JNull session_event) "close" then INTERRUPTED
      else PENDING in
    let* from_addr := jitem "from_addr" body in
    let* content_ := jitem "content" body in
    let* message := create_incoming request channel
                      (URN.from_tel (fmt_s (jvalue from_addr))) (jvalue content_)
                      (Some gmt_date) None status_ in
    (if negb (bool_decide (status_ = INTERRUPTED)) then
       (* use an update so there is no race with our handling *)
       let* message_id := jitem "message_id" body in
       update_row message.1 (with_external_id (jvalue message_id))
     else ret tt) ;;
    return_ (Http ("Message Accepted: " +:+ pretty message.1) 200)
  else
    return_ (Http "Not handled" 400)
  end
  end.

End handler.
End VumiHandler.

Module ClickatellHandler.
Section handler.
Context `{!MsgModel, !Collab}.
Import BaseChannelHandler.

(** possible status codes Clickatell will send us *)
Definition STATUS_CHOICES (code : option string) : option Status :=
  match code with
  | Some "001" => Some FAILED      (* incorrect msg id *)
  | Some "002" => Some WIRED       (* queued *)
  | Some "003" => Some SENT        (* delivered to upstream gateway *)
  | Some "004" => Some DELIVERED   (* received by handset *)
  | Some "005" => Some FAILED      (* error in message *)
  | Some "006" => Some FAILED      (* terminated by user *)
  | Some "007" => Some FAILED      (* error delivering *)
  | Some "008" => Some WIRED       (* msg received *)
  | Some "009" => Some FAILED      (* error routing *)
  | Some "010" => Some FAILED      (* expired *)
  | Some "011" => Some WIRED       (* delayed but queued *)
  | Some "012" => Some FAILED      (* out of credit *)
  | Some "014" => Some FAILED      (* too long *)
  | _ => None
  end.

(** [bcast = sms.first().broadcast; if bcast: bcast.update()]. *)
Definition update_broadcast (sms : QuerySet) : M unit :=
  let* first := fetch_first sms in
  match first with
  | None => raise AttributeError
  | Some first =>
    match broadcast first.2 with
    | Some bcast => emit (EvBroadcastUpdate bcast)
    | None => ret tt
    end
  end.

Definition post (request : HttpRequest) (kwargs : Kwargs) : M HttpResponse :=
  let action := lower (kw_action kwargs) in
  let request_uuid := kw_uuid kwargs in
  (* look up the channel *)
  let* channel := first_channel (by_uuid request_uuid TYPE_CLICKATELL) in
  match channel with
  | None => return_ (Http ("Channel not found for id: " +:+ request_uuid) 400)
  | Some channel =>
  let api_id := get_param request "api_id" None in
  (* make sure the API id matches if it is included (pings from
     clickatell don't include them) *)
  let* mismatch :=
    match api_id with
    | None => ret false
    | Some a => let* configured := getitem (config channel) CONFIG_API_ID in
                ret (negb (String.eqb configured a))
    end in
  if mismatch then
    return_ (Http ("Invalid API id for message delivery: " +:+ fmt_s api_id) 400)
  (* Clickatell is telling us a message status changed *)
  else if String.eqb action "status" then
    let sms_id := get_param request "apiMsgId" None in
    let status_code := get_param request "status" None in
    if (bool_decide (sms_id = None) || bool_decide (status_code = None))%bool then
      (* return 200 as clickatell pings our endpoint during configuration *)
      return_ (Http "Missing one of 'apiMsgId' or 'status' in request parameters." 200)
    else
    (* look up the message *)
    let sms : QuerySet := qs_and (channel_is channel) (external_id_is sms_id) in
    let* sms_rows := fetch sms in
    match sms_rows with
    | [] => return_ (Http ("Message with external id of '" +:+ fmt_s sms_id
                             +:+ "' not found") 400)
    | _ =>
    (* check our status *)
    match STATUS_CHOICES status_code with
    (* we don't recognize this status code *)
    | None => return_ (Http ("Unrecognized status code: '" +:+ fmt_s status_code
                               +:+ "', ignoring message.") 401)
    | Some status_ =>
      (* only update to SENT status if still in WIRED state *)
      (if bool_decide (status_ = SENT) then
         let* l := fetch (qs_and sms (status_in [PENDING; QUEUED; WIRED])) in
         for_each l obj_status_sent
       else if bool_decide (status_ = DELIVERED) then
         for_each sms_rows obj_status_delivered
       else if bool_decide (status_ = FAILED) then
         for_each sms_rows (fun sms_obj =>
           obj_fail sms_obj ;;
           emit (EvTrackStatus (default 0%nat (msg_channel sms_obj.2)) "Failed"))
       else
         (* ignore wired, we are wired by default *)
         ret tt) ;;
      (* update the broadcast status *)
      update_broadcast sms ;;
      return_ (Http "SMS Status Updated" 200)
    end
    end
  (* this is a new incoming message *)
  else if String.eqb action "receive" then
    match get_param request "from" None, get_param request "text" None,
          get_param request "moMsgId" None, get_param request "timestamp" None with
    | Some sms_from, Some sms_text, Some sms_id, Some sms_timestamp =>
      (* dates come in the format "2014-04-18 03:54:20" GMT+2 *)
      match parse_datetime sms_timestamp with
      | None => raise ValueError
      | Some None => raise AttributeError
      | Some (Some sms_date) =>
        let gmt_date := replace_tzinfo "Etc/GMT-2" sms_date in
        let charset := get_param request "charset" (Some "utf-8") in
        let* sms_text :=
          if is_str charset "UTF-16BE" then
            match from_utf16be sms_text with
            | Some t => ret t
            | None => raise ValueError
            end
          else if is_str charset "ISO-8859-1" then ret (from_latin1 sms_text)
          else ret sms_text in
        let* sms := create_incoming request channel (URN.from_tel sms_from)
                      (Some sms_text) (Some gmt_date) None PENDING in
        update_row sms.1 (with_external_id (Some sms_id)) ;;
        return_ (Http ("SMS Accepted: " +:+ pretty sms.1) 200)
      end
    | _, _, _, _ =>
      (* return 200 as clickatell pings our endpoint during configuration *)
      return_ (Http "Missing one of 'from', 'text', 'moMsgId' or 'timestamp' in request parameters." 200)
    end
  else
    return_ (Http "Not handled" 400)
  end.

Definition get := post.

End handler.
End ClickatellHandler.

(** The Plivo channel lookup. *)
Definition plivo_channel (u : string) (c : Channel) : bool :=
  (is_active c && String.eqb (uuid c) u && String.eqb (channel_type c) TYPE_PLIVO)%bool.

Module PlivoHandler.
Section handler.
Context `{!MsgModel, !Collab}.
Import BaseChannelHandler.

Definition STATUS_CHOICES (code : option string) : option Status :=
  match code with
  | Some "queued" => Some WIRED
  | Some "sent" => Some SENT
  | Some "delivered" => Some DELIVERED
  | Some "undelivered" => Some SENT
  | Some "rejected" => Some FAILED
  | _ => None
  end.

(** [if a[0] != '+': a = '+' + a]. *)
Definition with_plus (a : string) : M string :=
  match a with
  | EmptyString => raise IndexError
  | String c _ => if Ascii.eqb c "+" then ret a else ret ("+" +:+ a)
  end.

Definition post (request : HttpRequest) (kwargs : Kwargs) : M HttpResponse :=
  let action := lower (kw_action kwargs) in
  let request_uuid := kw_uuid kwargs in
  match get_param request "From" None, get_param request "To" None,
        get_param request "MessageUUID" None with
  | Some sms_from, Some sms_to, Some sms_id =>
  let* channel := first_channel (plivo_channel request_uuid) in
  if String.eqb action "status" then
    let plivo_channel_address := sms_from in
    match get_param request "Status" None with
    | None => return_ (Http "Missing 'Status' in request parameters." 400)
    | Some plivo_status =>
    match channel with
    | None => return_ (Http ("Channel not found for number: "
                               +:+ plivo_channel_address) 400)
    | Some channel =>
    let* channel_address := with_plus plivo_channel_address in
    if negb (bool_decide (address channel = Some channel_address)) then
      return_ (Http ("Channel not found for number: " +:+ plivo_channel_address) 400)
    else
    let sms_id := default sms_id (get_param request "ParentMessageUUID" None) in
    (* look up the message *)
    let sms : QuerySet := qs_and (channel_is channel) (external_id_is (Some sms_id)) in
    let* sms_rows := fetch sms in
    match sms_rows with
    | [] => return_ (Http ("Message with external id of '" +:+ sms_id
                             +:+ "' not found") 400)
    | _ =>
    match STATUS_CHOICES (Some plivo_status) with
    | None => return_ (Http ("Unrecognized status: '" +:+ plivo_status
                               +:+ "', ignoring message.") 401)
    | Some status_ =>
      (* only update to SENT status if still in WIRED state *)
      (if bool_decide (status_ = SENT) then
         let* l := fetch (qs_and sms (status_in [PENDING; QUEUED; WIRED])) in
         for_each l obj_status_sent
       else if bool_decide (status_ = DELIVERED) then
         for_each sms_rows obj_status_delivered
       else if bool_decide (status_ = FAILED) then
         for_each sms_rows (fun sms_obj =>
           obj_fail sms_obj ;;
           emit (EvTrackStatus (default 0%nat (msg_channel sms_obj.2)) "Failed"))
       else
         (* ignore wired, we are wired by default *)
         ret tt) ;;
      (* update the broadcast status *)
      ClickatellHandler.update_broadcast sms ;;
      return_ (Http "Status Updated" 200)
    end
    end
    end
    end
  else if String.eqb action "receive" then
    let plivo_channel_address := sms_to in
    match get_param request "Text" None with
    | None => return_ (Http "Missing 'Text' in request parameters." 400)
    | Some sms_text =>
    match channel with
    | None => return_ (Http ("Channel not found for number: "
                               +:+ plivo_channel_address) 400)
    | Some channel =>
    let* channel_address := with_plus plivo_channel_address in
    if negb (bool_decide (address channel = Some channel_address)) then
      return_ (Http ("Channel not found for number: " +:+ plivo_channel_address) 400)
    else
    let* sms := create_incoming request channel (URN.from_tel sms_from)
                  (Some sms_text) None None PENDING in
    update_row sms.1 (with_external_id (Some sms_id)) ;;
    return_ (Http ("SMS accepted: " +:+ pretty sms.1) 200)
    end
    end
  else
    return_ (Http "Not handled" 400)
  | _, _, _ =>
    return_ (Http "Missing one of 'From', 'To', or 'MessageUUID' in request parameters." 400)
  end.

Definition get := post.

End handler.
End PlivoHandler.

Module ChikkaHandler.
Section handler.
Context `{!MsgModel, !Collab}.
Import BaseChannelHandler.

(** possible status codes Chikka will send us *)
Definition status_choices (code : option string) : option Status :=
  match code with
  | Some "SENT" => Some SENT
  | Some "FAILED" => Some FAILED
  | _ => None
  end.

Definition post (request : HttpRequest) (kwargs : Kwargs) : M HttpResponse :=
  let request_uuid := kw_uuid kwargs in
  match get_param request "message_type" None with
  | None => raise AttributeError
  | Some message_type =>
  let action := lower message_type in
  (* look up the channel *)
  let* channel := first_channel (by_uuid request_uuid TYPE_CHIKKA) in
  match channel with
  | None => return_ (Http ("Error, channel not found for id: " +:+ request_uuid) 400)
  | Some channel =>
  (* if this is the status of an outgoing message *)
  if String.eqb action "outgoing" then
    let sms_id := get_param request "message_id" None in
    let status_code := get_param request "status" None in
    if (bool_decide (sms_id = None) || bool_decide (status_code = None))%bool then
      return_ (Http "Error, missing one of 'message_id' or 'status' in request parameters." 400)
    else
    (* look up the message *)
    let* id_ := pk_value sms_id in
    let sms : QuerySet := qs_and (channel_is channel) (pk_is id_) in
    let* sms_rows := fetch sms in
    match sms_rows with
    | [] => return_ (Http ("Error, message with external id of '" +:+ fmt_s sms_id
                             +:+ "' not found") 400)
    | _ =>
    (* check our status *)
    match status_choices status_code with
    (* we don't recognize this status code *)
    | None => return_ (Http ("Error, unrecognized status: '" +:+ fmt_s status_code
                               +:+ "', ignoring message.") 400)
    | Some status_ =>
      (* only update to SENT status if still in WIRED state *)
      (if bool_decide (status_ = SENT) then
         let* l := fetch (qs_and sms (status_in [PENDING; QUEUED; WIRED])) in
         for_each l obj_status_sent
       else if bool_decide (status_ = FAILED) then
         for_each sms_rows obj_fail
       else ret tt) ;;
      return_ (Http "Accepted. SMS Status Updated" 200)
    end
    end
  (* this is a new incoming message *)
  else if String.eqb action "incoming" then
    match get_param request "request_id" None, get_param request "mobile_number" None,
          get_param request "message" None, get_param request "timestamp" None with
    | Some sms_id, Some sms_from, Some sms_text, Some sms_timestamp =>
      (* dates come as timestamps *)
      match py_float sms_timestamp with
      | None => raise ValueError
      | Some ts =>
        match utcfromtimestamp ts with
        | None => raise ValueError
        | Some sms_date =>
          let gmt_date := replace_tzinfo "GMT" sms_date in
          let urn := URN.from_tel sms_from in
          let* sms := create_incoming request channel urn (Some sms_text)
                        (Some gmt_date) None PENDING in
          (* save our request id in case of replies *)
          update_row sms.1 (with_external_id (Some sms_id)) ;;
          return_ (Http ("Accepted: " +:+ pretty sms.1) 200)
        end
      end
    | _, _, _, _ =>
      return_ (Http "Error, missing one of 'mobile_number', 'request_id', 'message' or 'timestamp' in request parameters." 400)
    end
  else
    return_ (Http "Error, unknown message type" 400)
  end
  end.

Definition get := post.

End handler.
End ChikkaHandler.

Module JasminHandler.
Section handler.
Context `{!MsgModel, !Collab}.

Definition get (request : HttpRequest) (kwargs : Kwargs) : M HttpResponse :=
  return_ (Http "Must be called as a POST" 400).

Definition post (request : HttpRequest) (kwargs : Kwargs) : M HttpResponse :=
  let action := lower (kw_action kwargs) in
  let request_uuid := kw_uuid kwargs in
  (* look up the channel *)
  let* channel := first_channel (by_uuid request_uuid TYPE_JASMIN) in
  match channel with
  | None => return_ (Http ("Channel not found for id: " +:+ request_uuid) 400)
  | Some channel =>
  (* Jasmin is updating the delivery status for a message *)
  if String.eqb action "status" then
    match POST request !! "id", POST request !! "dlvrd", POST request !! "err" with
    | Some sms_id, Some dlvrd, Some err =>
      (* look up the message *)
      let sms : QuerySet := qs_and (channel_is channel) (external_id_is (Some sms_id)) in
      let* sms_rows := fetch sms in
      match sms_rows with
      | [] => return_ (Http ("Message with external id of '" +:+ sms_id
                               +:+ "' not found") 400)
      | _ =>
        (if String.eqb dlvrd "1" then for_each sms_rows obj_status_delivered
         else if String.eqb err "1" then for_each sms_rows obj_fail
         else ret tt) ;;
        (* tell Jasmin we handled this *)
        return_ (Http "ACK/Jasmin" 200)
      end
    | _, _, _ =>
      return_ (Http "Missing one of 'id' or 'dlvrd' or 'err' in request parameters." 400)
    end
  (* this is a new incoming message *)
  else if String.eqb action "receive" then
    match POST request !! "content", POST request !! "coding", POST request !! "from",
          POST request !! "to", POST request !! "id" with
    | Some content_, Some coding, Some from_, Some _, Some id_ =>
      (* if we are GSM7 coded, decode it *)
      let content_ := if String.eqb coding "0" then gsm7_decode content_ else content_ in
      let* sms := create_incoming request channel (URN.from_tel from_) (Some content_)
                    None None PENDING in
      update_row sms.1 (with_external_id (Some id_)) ;;
      return_ (Http "ACK/Jasmin" 200)
    | _, _, _, _, _ =>
      return_ (Http "Missing one of 'content', 'coding', 'from', 'to' or 'id' in request parameters." 400)
    end
  else
    return_ (Http "Not handled, unknown action" 400)
  end.

End handler.
End JasminHandler.

Module MbloxHandler.
Section handler.
Context `{!MsgModel, !Collab}.

Definition get (request : HttpRequest) (kwargs : Kwargs) : M HttpResponse :=
  return_ (Http "Must be called as a POST" 400).

Definition post (request : HttpRequest) (kwargs : Kwargs) : M HttpResponse :=
  let request_uuid := kw_uuid kwargs in
  (* look up the channel *)
  let* channel := first_channel (by_uuid request_uuid TYPE_MBLOX) in
  match channel with
  | None => return_ (Http ("Channel not found for id: " +:+ request_uuid) 400)
  | Some channel =>
  (* parse our response *)
  match body_json request with
  | None => return_ (Http ("Invalid JSON in POST body: " +:+ json_error request) 400)
  | Some body =>
  let* has_type := has_key "type" body in
  if negb has_type then return_ (Http "Missing 'type' in request body." 400)
  else
  let* type_ := jitem "type" body in
  (* two possible actions we care about: mo_text and
     recipient_deliveryreport_sms *)
  if jis_str type_ "recipient_delivery_report_sms" then
    let* ok := has_keys ["batch_id"; "status"] body in
    if negb ok then
      return_ (Http "Missing one of 'batch_id' or 'status' in request body." 400)
    else
    let* msg_id := jitem "batch_id" body in
    let* status_ := jitem "status" body in
    (* look up the message *)
    let msgs_ : QuerySet := qs_and (channel_is channel) (external_id_is (jvalue msg_id)) in
    let* msgs_rows := fetch msgs_ in
    match msgs_rows with
    | [] => return_ (Http ("Message with external id of '" +:+ fmt_s (jvalue msg_id)
                             +:+ "' not found") 400)
    | _ =>
      (if jis_str status_ "Delivered" then for_each msgs_rows obj_status_delivered
       else ret tt) ;;
      (if jis_str status_ "Dispatched" then for_each msgs_rows obj_status_sent
       else if (jis_str status_ "Aborted" || jis_str status_ "Rejected"
                || jis_str status_ "Failed" || jis_str status_ "Expired")%bool then
         for_each msgs_rows obj_fail
       else ret tt) ;;
      (* tell Mblox we've handled this *)
      return_ (Http ("SMS Updated: "
                       +:+ join "," ((fun o : MsgObj => pretty o.1) <$> msgs_rows)) 200)
    end
  (* this is a new incoming message *)
  else if jis_str type_ "mo_text" then
    let* ok := has_keys ["id"; "from"; "to"; "body"; "received_at"] body in
    if negb ok then
      return_ (Http "Missing one of 'id', 'from', 'to', 'body' or 'received_at' in request body." 400)
    else
    let* received_at := jitem "received_at" body in
    let* msg_date :=
      match received_at with
      | JStr t => match parse_datetime t with
                  | Some d => ret d
                  | None => raise ValueError
                  end
      | _ => raise TypeError
      end in
    let* from_ := jitem "from" body in
    let* text_ := jitem "body" body in
    let* msg := create_incoming request channel (URN.from_tel (fmt_s (jvalue from_)))
                  (jvalue text_) msg_date None PENDING in
    let* id_ := jitem "id" body in
    update_row msg.1 (with_external_id (jvalue id_)) ;;
    return_ (Http ("SMS Accepted: " +:+ pretty msg.1) 200)
  else
    return_ (Http ("Not handled, unknown type: " +:+ fmt_s (jvalue type_)) 400)
  end
  end.

End handler.
End MbloxHandler.

Module ViberHandler.
Section handler.
Context `{!MsgModel, !Collab}.

Definition get (request : HttpRequest) (kwargs : Kwargs) : M HttpResponse :=
  return_ (Http "Must be called as a POST" 405).

Definition post (request : HttpRequest) (kwargs : Kwargs) : M HttpResponse :=
  let action := lower (kw_action kwargs) in
  let request_uuid := kw_uuid kwargs in
  (* look up the channel *)
  let* channel := first_channel (by_uuid request_uuid TYPE_VIBER) in
  match channel with
  | None => return_ (Http ("Channel not found for id: " +:+ request_uuid) 400)
  | Some channel =>
  (* parse our response *)
  match body_json request with
  | None => return_ (Http ("Invalid JSON in POST body: " +:+ json_error request) 400)
  | Some body =>
  (* Viber is updating the delivery status for a message *)
  if String.eqb action "status" then
    let* external_id_ := jitem "message_token" body in
    let* msg := fetch_first (qs_and (qs_and (channel_is channel) (direction_is OUTGOING))
                                    (external_id_is (jvalue external_id_))) in
    match msg with
    | None =>
      (* viber is hammers us incessantly if we give 400s for
         non-existant message_ids *)
      return_ (Http ("Message with external id of '" +:+ fmt_s (jvalue external_id_)
                       +:+ "' not found") 200)
    | Some msg =>
      obj_status_delivered msg ;;
      (* tell Viber we handled this *)
      return_ (Http ("Msg " +:+ pretty msg.1 +:+ " updated") 200)
    end
  (* this is a new incoming message *)
  else if String.eqb action "receive" then
    let* ok := has_keys ["message_token"; "phone_number"; "time"; "message"] body in
    if negb ok then
      return_ (Http "Missing one of 'message_token', 'phone_number', 'time', or 'message' in request parameters." 400)
    else
    let* time_ := jitem "time" body in
    let* msg_date :=
      match time_ with
      | JNum t => match utcfromtimestamp t with
                  | Some d => ret (replace_tzinfo "UTC" d)
                  | None => raise ValueError
                  end
      | _ => raise TypeError
      end in
    let* phone_number := jitem "phone_number" body in
    let* message := jitem "message" body in
    let* text_ := jitem "text" message in
    let* msg := create_incoming request channel
                  (URN.from_tel (fmt_s (jvalue phone_number))) (jvalue text_)
                  (Some msg_date) None PENDING in
    let* token := jitem "message_token" body in
    update_row msg.1 (with_external_id (jvalue token)) ;;
    return_ (Http ("Msg Accepted: " +:+ pretty msg.1) 200)
  else
    return_ (Http "Not handled, unknown action" 400)
  end
  end.

End handler.
End ViberHandler.

Module FacebookHandler.
Section handler.
Context `{!MsgModel, !Collab}.

Definition lookup_channel (kwargs : Kwargs) : M (option Channel) :=
  first_channel (by_uuid (kw_uuid kwargs) TYPE_FACEBOOK).

Definition get (request : HttpRequest) (kwargs : Kwargs) : M HttpResponse :=
  let* channel := lookup_channel kwargs in
  match channel with
  | None => return_ (Http ("Channel not found for id: " +:+ kw_uuid kwargs) 400)
  | Some channel =>
    (* this is a verification of a webhook *)
    if (is_str (GET request !! "hub.mode") "subscribe"
        && bool_decide (secret channel = GET request !! "hub.verify_token"))%bool then
      (* verify the token against our secret, if the same return the
         challenge FB sent us *)
      emit (EvFbSubscribe (channel_id channel)) ;;
      return_ (Http (fmt_s (GET request !! "hub.challenge")) 200)
    else
      return_ (Http (Json (JObj [("error", JStr "Unknown request")])) 400)
  end.

Definition as_str (v : JSON) : M string :=
  match v with
  | JStr s => ret s
  | _ => raise TypeError
  end.

(** The urls, and titles, of the attachments of a message. *)
Definition attachment_urls (attachments : list JSON) : M (list string) :=
  fold_m attachments (fun attachment urls =>
    let* payload := jitem "payload" attachment in
    let* in_payload := if jtruthy payload then has_key "url" payload else ret false in
    if in_payload then
      let* u := jitem "url" payload in
      let* u := as_str u in
      ret (urls ++ [u])
    else
      let* has_url := has_key "url" attachment in
      let* u := if has_url then jitem "url" attachment else ret JNull in
      if (has_url && jtruthy u)%bool then
        let* has_title := has_key "title" attachment in
        let* urls :=
          if has_title then
            let* t := jitem "title" attachment in
            let* t := as_str t in
            ret (urls ++ [t])
          else ret urls in
        let* u := as_str u in
        ret (urls ++ [u])
      else ret urls) [].

Definition newline : string := String (ascii_of_nat 10) EmptyString.

(** One item of [entry['messaging']]; [status] is the list of notes
    built so far. *)
Definition envelope_ (request : HttpRequest) (channel : Channel)
    (envelope : JSON) (status_ : list string) : M (list string) :=
  let* has_message := has_key "message" envelope in
  let* has_postback := has_key "postback" envelope in
  let* has_delivery := has_key "delivery" envelope in
  if (has_message || has_postback)%bool then
    (* ignore echos *)
    let* echo :=
      if has_message then
        let* message := jitem "message" envelope in
        let* e := jget "is_echo" message in
        ret (jtruthy (default JNull e))
      else ret false in
    if echo then ret (status_ ++ ["Echo Ignored"])
    else
    (* check that the recipient is correct for this channel *)
    let* recipient := jitem "recipient" envelope in
    let* recipient_id := jitem "id" recipient in
    let channel_address := fmt_s (jvalue recipient_id) in
    if negb (bool_decide (address channel = Some channel_address)) then
      return_ (Http ("Msg Ignored for recipient id: " +:+ fmt_s (address channel)) 200)
    else
    let* content_ :=
      if has_message then
        let* message := jitem "message" envelope in
        let* has_text := has_key "text" message in
        if has_text then
          let* t := jitem "text" message in ret (Some t)
        else
          let* has_attachments := has_key "attachments" message in
          if has_attachments then
            let* a := jitem "attachments" message in
            let* a := jiter a in
            let* urls := attachment_urls a in
            ret (Some (JStr (join newline urls)))
          else ret None
      else ret None in
    let* postback :=
      if has_message then ret None
      else
        let* p := jitem "postback" envelope in
        let* p := jitem "payload" p in
        ret (Some p) in
    let truthy_ (v : option JSON) := jtruthy (default JNull v) in
    (* if we have some content, load the contact *)
    let* urn :=
      if (truthy_ content_ || truthy_ postback)%bool then
        let* sender := jitem "sender" envelope in
        let* sender_id := jitem "id" sender in
        let urn := URN.from_facebook (fmt_s (jvalue sender_id)) in
        let* o := match org channel with
                  | Some o => ret o
                  | None => raise AttributeError
                  end in
        let* contact := Contact_from_urn o urn in
        (* if not, let's go create it *)
        (if negb contact then
           (* if this isn't an anonymous org, look up their name from
              the Facebook API *)
           let name := if negb (is_anon o)
                       then fb_lookup_name channel (fmt_s (jvalue sender_id))
                       else None in
           Contact_get_or_create o name urn
         else ret tt) ;;
        ret (Some urn)
      else ret None in
    (* we received a new message, create and handle it *)
    if truthy_ content_ then
      let* timestamp := jitem "timestamp" envelope in
      let* msg_date :=
        match timestamp with
        | JNum t => match fromtimestamp_ms t with
                    | Some d => ret (replace_tzinfo "UTC" d)
                    | None => raise ValueError
                    end
        | _ => raise TypeError
        end in
      let* msg := create_incoming request channel (default "" urn)
                    (jvalue (default JNull content_)) (Some msg_date) None PENDING in
      let* message := jitem "message" envelope in
      let* mid := jitem "mid" message in
      update_row msg.1 (with_external_id (jvalue mid)) ;;
      ret (status_ ++ ["Msg " +:+ pretty msg.1 +:+ " accepted."])
    (* a contact pressed "Get Started", trigger any new conversation
       triggers *)
    else if jis_str (default JNull postback) GET_STARTED then
      match urn with
      | Some urn =>
        emit (EvTrigger "new_conversation" urn (channel_id channel)) ;;
        ret (status_ ++ ["Postback handled."])
      | None => raise AttributeError
      end
    else ret (status_ ++ ["Ignored, content unavailable"])
  else
    let* delivery := if has_delivery then jitem "delivery" envelope else ret JNull in
    let* has_mids := if has_delivery then has_key "mids" delivery else ret false in
    if (has_delivery && has_mids)%bool then
      let* mids := jitem "mids" delivery in
      let* mids := jiter mids in
      fold_m mids (fun external_id_ status_ =>
        let* msg := fetch_first (qs_and (qs_and (channel_is channel)
                                                (direction_is OUTGOING))
                                        (external_id_is (jvalue external_id_))) in
        match msg with
        | Some msg =>
          obj_status_delivered msg ;;
          ret (status_ ++ ["Msg " +:+ pretty msg.1 +:+ " updated."])
        | None => ret status_
        end) status_
    else ret (status_ ++ ["Messaging entry Ignored"]).

Definition post (request : HttpRequest) (kwargs : Kwargs) : M HttpResponse :=
  let* channel := lookup_channel kwargs in
  match channel with
  | None => return_ (Http ("Channel not found for id: " +:+ kw_uuid kwargs) 400)
  | Some channel =>
  (* parse our response *)
  match body_json request with
  | None => return_ (Http ("Invalid JSON in POST body: " +:+ json_error request) 400)
  | Some body =>
  let* has_entry := has_key "entry" body in
  if negb has_entry then return_ (Http "Missing entry array" 400)
  else
  (* iterate through our entries, handling them *)
  let* entries := jget "entry" body in
  let* entries := jiter (default JNull entries) in
  for_each entries (fun entry =>
    (* this is a messaging notification *)
    let* has_messaging := has_key "messaging" entry in
    if has_messaging then
      let* messaging := jitem "messaging" entry in
      let* envelopes := jiter messaging in
      let* status_ := fold_m envelopes (envelope_ request channel) [] in
      return_ (Http (Json (JObj [("status", JArr (JStr <$> status_))])) 200)
    else ret tt) ;;
  return_ (Http (Json (JObj [("status", JArr [JStr "Ignored, unknown msg"])])) 200)
  end
  end.

End handler.
End FacebookHandler.

Module GlobeHandler.
Section handler.
Context `{!Collab}.

Definition get (request : HttpRequest) (kwargs : Kwargs) : M HttpResponse :=
  return_ (Http "Illegal method, must be POST" 405).

Definition post (request : HttpRequest) (kwargs : Kwargs) : M HttpResponse :=
  let action := lower (kw_action kwargs) in
  let request_uuid := kw_uuid kwargs in
  (* look up the channel *)
  let* channel := first_channel (by_uuid request_uuid TYPE_GLOBE) in
  match channel with
  | None => return_ (Http ("Channel not found for id: " +:+ request_uuid) 400)
  | Some channel =>
  (* parse our JSON *)
  match body_json request with
  | None => return_ (Http ("Invalid JSON: " +:+ json_error request) 400)
  | Some body =>
  (* needs to contain our message list and inboundSMS message *)
  let* has_list := has_key "inboundSMSMessageList" body in
  let* has_msgs :=
    if has_list then
      let* l := jitem "inboundSMSMessageList" body in
      has_key "inboundSMSMessage" l
    else ret false in
  if negb has_msgs then
    return_ (Http "Invalid request, missing inboundSMSMessageList or inboundSMSMessage" 400)
  else if String.eqb action "receive" then
    let* l := jitem "inboundSMSMessageList" body in
    let* l := jitem "inboundSMSMessage" l in
    let* l := jiter l in
    let* msgs_ := fold_m l (fun inbound_msg msgs_ =>
      let* ok := has_keys ["dateTime"; "senderAddress"; "message"; "messageId";
                           "destinationAddress"] inbound_msg in
      if negb ok then
        return_ (Http "Missing one of dateTime, senderAddress, message, messageId or destinationAddress in message" 400)
      else
      let* destination_address := jitem "destinationAddress" inbound_msg in
      let* destination_address := FacebookHandler.as_str destination_address in
      match URN.to_parts destination_address with
      | None => return_ (Http ("Error parsing destination address: "
                                 +:+ to_parts_error destination_address) 400)
      | Some (_, destination) =>
      if negb (bool_decide (address channel = Some destination)) then
        return_ (Http ("Invalid request, channel address: " +:+ fmt_s (address channel)
                         +:+ " mismatch with destinationAddress: " +:+ destination) 400)
      else
      let* date_time := jitem "dateTime" inbound_msg in
      let* date_time := FacebookHandler.as_str date_time in
      match strptime date_time "%a %b %d %Y %H:%M:%S GMT+0000 (UTC)" with
      | None => raise ValueError
      | Some sms_date =>
      let gmt_date := replace_tzinfo "GMT" sms_date in
      (* parse our sender address out, it is a URN looking thing *)
      let* sender_address := jitem "senderAddress" inbound_msg in
      let* sender_address := FacebookHandler.as_str sender_address in
      match URN.to_parts sender_address with
      | None => return_ (Http ("Error parsing sender address: "
                                 +:+ to_parts_error sender_address) 400)
      | Some (_, sender_tel) =>
        let* message := jitem "message" inbound_msg in
        let* msg := create_incoming request channel (URN.from_tel sender_tel)
                      (jvalue message) (Some gmt_date) None PENDING in
        (* use an update so there is no race with our handling *)
        let* message_id := jitem "messageId" inbound_msg in
        update_row msg.1 (with_external_id (jvalue message_id)) ;;
        ret (msgs_ ++ [msg])
      end
      end
      end) [] in
    return_ (Http ("Msgs Accepted: "
                     +:+ join ", " ((fun m : MsgObj => pretty m.1) <$> msgs_)) 200)
  else
    return_ (Http "Not handled" 400)
  end
  end.

End handler.
End GlobeHandler.

Module StartHandler.

Definition post (request : HttpRequest) (kwargs : Kwargs) : M HttpResponse :=
  let channel_uuid := kw_uuid kwargs in
  let* channel := first_channel (by_uuid channel_uuid TYPE_START) in
  match channel with
  | None => return_ (Http ("Channel with uuid: " +:+ channel_uuid +:+ " not found.") 400)
  | Some channel =>
    let message := body_xml request in
    let service := message ≫= InfobipHandler.find "service" in
    let external_id_ := service ≫= InfobipHandler.attr "request_id" in
    let sender_el := message ≫= InfobipHandler.find "from" in
    let text_el := message ≫= InfobipHandler.find "body" in
    (* validate all the appropriate fields are there *)
    match external_id_, sender_el, text_el with
    | Some _, Some (Elem _ _ sender_text _), Some (Elem _ _ text_ _) =>
      let text_ := default "" text_ in
      create_incoming request channel (URN.from_tel (fmt_s sender_text)) (Some text_)
                      None None PENDING ;;
      (* Start expects an XML response *)
      return_ (Http (Xml (Elem "answer" [("type", "async")] None
                            [Elem "state" [] (Some "Accepted") []])) 200)
    | _, _, _ =>
      return_ (Http "Missing parameters, must have 'request_id', 'to' and 'body'" 400)
    end
  end.

End StartHandler.

(** ** Dispatch *)

Inductive Handler :=
| TwimlAPI | Twilio | TwilioMessagingService | AfricasTalking | Zenvia
| External | Shaqodoon | Yo | Infobip | Hub9 | HighConnection | Blackmyna
| SMSCentral | M3Tech | Nexmo | Vumi | Kannel | Clickatell | Plivo | Mage
| Start | Chikka | Jasmin | Mblox | Facebook | Globe | Viber.

Inductive Method := GET_ | POST_.

(** [View.dispatch] answers 405 when the class lacks the method. *)
Definition http_method_not_allowed : M HttpResponse := return_ (Http "" 405).

Section dispatch.
Context `{!MsgModel, !Collab}.

Definition dispatch (h : Handler) (method : Method) (request : HttpRequest)
    (kwargs : Kwargs) : M HttpResponse :=
  match h, method with
  | TwimlAPI, GET_ => @TwimlAPIHandler.get request kwargs
  | TwimlAPI, POST_ => @TwimlAPIHandler.post _ _ TwimlAPIHandler.methods request kwargs
  | Twilio, GET_ => @TwimlAPIHandler.get request kwargs
  | Twilio, POST_ => @TwimlAPIHandler.post _ _ TwilioHandler.methods request kwargs
  | TwilioMessagingService, _ => TwilioMessagingServiceHandler.post request kwargs
  | AfricasTalking, GET_ => AfricasTalkingHandler.get request kwargs
  | AfricasTalking, POST_ => AfricasTalkingHandler.post request kwargs
  | Zenvia, _ => ZenviaHandler.post request kwargs
  | External, _ => ExternalHandler.post TYPE_EXTERNAL request kwargs
  | Shaqodoon, _ => ExternalHandler.post TYPE_SHAQODOON request kwargs
  | Yo, _ => ExternalHandler.post TYPE_YO request kwargs
  | M3Tech, _ => ExternalHandler.post TYPE_M3TECH request kwargs
  | Infobip, GET_ => InfobipHandler.get request kwargs
  | Infobip, POST_ => InfobipHandler.post request kwargs
  | Hub9, GET_ => Hub9Handler.get request kwargs
  | Hub9, POST_ => http_method_not_allowed
  | HighConnection, _ => HighConnectionHandler.get request kwargs
  | Blackmyna, _ => BlackmynaHandler.get request kwargs
  | SMSCentral, _ => SMSCentralHandler.get request kwargs
  | Nexmo, _ => NexmoHandler.get request kwargs
  | Vumi, GET_ => VumiHandler.get request kwargs
  | Vumi, POST_ => VumiHandler.post request kwargs
  | Kannel, _ => KannelHandler.post request kwargs
  | Clickatell, _ => ClickatellHandler.post request kwargs
  | Plivo, _ => PlivoHandler.post request kwargs
  | Mage, GET_ => MageHandler.get request kwargs
  | Mage, POST_ => MageHandler.post request kwargs
  | Start, GET_ => http_method_not_allowed
  | Start, POST_ => StartHandler.post request kwargs
  | Chikka, _ => ChikkaHandler.post request kwargs
  | Jasmin, GET_ => JasminHandler.get request kwargs
  | Jasmin, POST_ => JasminHandler.post request kwargs
  | Mblox, GET_ => MbloxHandler.get request kwargs
  | Mblox, POST_ => MbloxHandler.post request kwargs
  | Facebook, GET_ => FacebookHandler.get request kwargs
  | Facebook, POST_ => FacebookHandler.post request kwargs
  | Globe, GET_ => GlobeHandler.get request kwargs
  | Globe, POST_ => GlobeHandler.post request kwargs
  | Viber, GET_ => ViberHandler.get request kwargs
  | Viber, POST_ => ViberHandler.post request kwargs
  end.

(** What the caller sees of one request, and the store after it. *)
Definition handle (h : Handler) (method : Method) (request : HttpRequest)
    (kwargs : Kwargs) (st : State) : Outcome * State :=
  run (dispatch h method request kwargs) st.

End dispatch.

(** ** Requests that differ in one query parameter *)

Definition with_GET (name value : string) (r : HttpRequest) : HttpRequest :=
  {| GET := <[name := value]> (GET r); POST := POST r; META := META r;
     full_path := full_path r; body_json := body_json r; body_xml := body_xml r;
     now := now r |}.

(** ** A reference environment

    One concrete choice of the libraries and settings, for running the
    handlers on examples. Its [strptime] reads the directives [%Y]
    (four digits) and [%m %d %H %M %S] (two digits each) and takes any
    other character of the format literally; Python's also accepts
    one-digit fields, which the examples do not use. *)
Module Reference.

Fixpoint take_digits (n : nat) (s : string) (acc : Z) : option (Z * string) :=
  match n with
  | O => Some (acc, s)
  | S n' =>
      match s with
      | String c r =>
          match digit_of c with
          | Some d => take_digits n' r (10 * acc + d)
          | None => None
          end
      | EmptyString => None
      end
  end.

Definition set_field (d : ascii) (v : Z) (t : datetime) : option datetime :=
  let mk y mo da h mi se :=
    {| year := y; month := mo; day := da; hour := h; minute := mi; second := se;
       tzinfo := None |} in
  if Ascii.eqb d "Y" then Some (mk v (month t) (day t) (hour t) (minute t) (second t))
  else if Ascii.eqb d "m" then
    if (Z.leb 1 v && Z.leb v 12)%bool
    then Some (mk (year t) v (day t) (hour t) (minute t) (second t)) else None
  else if Ascii.eqb d "d" then
    if (Z.leb 1 v && Z.leb v 31)%bool
    then Some (mk (year t) (month t) v (hour t) (minute t) (second t)) else None
  else if Ascii.eqb d "H" then
    if Z.leb v 23
    then Some (mk (year t) (month t) (day t) v (minute t) (second t)) else None
  else if Ascii.eqb d "M" then
    if Z.leb v 59
    then Some (mk (year t) (month t) (day t) (hour t) v (second t)) else None
  else if Ascii.eqb d "S" then
    if Z.leb v 61
    then Some (mk (year t) (month t) (day t) (hour t) (minute t) v) else None
  else None.

Fixpoint parse (fmt s : string) (t : datetime) : option datetime :=
  match fmt with
  | EmptyString => if String.eqb s "" then Some t else None
  | String "%" (String d fmt') =>
      match take_digits (if Ascii.eqb d "Y" then 4 else 2) s 0 with
      | Some (v, s') =>
          match set_field d v t with
          | Some t' => parse fmt' s' t'
          | None => None
          end
      | None => None
      end
  | String c fmt' =>
      match s with
      | String c' s' => if Ascii.eqb c c' then parse fmt' s' t else None
      | EmptyString => None
      end
  end.

Definition epoch : datetime :=
  {| year := 1900; month := 1; day := 1; hour := 0; minute := 0; second := 0;
     tzinfo := None |}.

Definition strptime_strict (text fmt : string) : option datetime :=
  parse fmt text epoch.

(** A validator that accepts the signature that spells the token. *)
Definition signed_by (token url : string) (post : gmap string string)
    (signature : string) : bool := String.eqb signature token.

Definition collab : Collab :=
  {| TEMBA_HOST := "temba.example";
     HOSTNAME := "temba.example";
     MAGE_AUTH_TOKEN := "sesame";
     CONFIG_API_ID := "api_id";
     CONFIG_AUTH_TOKEN := "auth_token";
     GET_STARTED := "get_started";
     NEXMO_UUID := "NEXMO_UUID";
     validate := signed_by;
     get_ivr_client := fun c => config c !! "auth_token";
     get_twilio_client := fun o => org_config o !! "ACCOUNT_TOKEN";
     is_connected_to_twilio := fun o => bool_decide (is_Some (org_config o !! "ACCOUNT_TOKEN"));
     download_media := fun u => "image/jpeg:" +:+ u;
     twiml_say_hangup := fun t => t;
     normalize_number := fun n c => (n, true);
     find_flow_for_inbound_call := fun _ => None;
     handle_call := fun _ => "";
     strptime := strptime_strict;
     parse_datetime := fun t => Some (strptime_strict t "%Y-%m-%d %H:%M:%S");
     json_date_to_datetime := fun t => strptime_strict t "%Y-%m-%dT%H:%M:%S";
     ms_to_datetime := fun _ => epoch;
     utcfromtimestamp := fun _ => Some epoch;
     py_float := py_int;
     gsm7_decode := fun t => t;
     from_utf16be := fun t => Some t;
     from_latin1 := fun t => t;
     py_str := fun v => match v with JNum n => pretty n | _ => "" end;
     json_error := fun _ => "No JSON object could be decoded";
     fromtimestamp_ms := fun _ => Some epoch;
     to_parts_error := fun _ => "URN strings must contain scheme and path components";
     fb_lookup_name := fun _ _ => None |}.

End Reference.

(** ** A small store and requests to run the handlers on *)
Module Examples.

Definition org1 : Org :=
  {| org_id := 1; is_anon := false;
     org_config := {[ "NEXMO_UUID" := "nexmo-key"; "ACCOUNT_TOKEN" := "twilio-token" ]} |}.

Definition channel_ (id : nat) (u type_ : string) (addr : string)
    (o : option Org) : Channel :=
  {| channel_id := id; uuid := u; channel_type := type_; address := Some addr;
     role := "SR"; is_active := true; org := o;
     config := {[ "api_id" := "12345"; "auth_token" := "twilio-token" ]};
     secret := Some "s3cret"; scheme := "tel" |}.

Definition kannel := channel_ 1 "uuid-kannel" TYPE_KANNEL "+250788000001" (Some org1).
Definition clickatell := channel_ 2 "uuid-clickatell" TYPE_CLICKATELL "+250788000002" (Some org1).
Definition plivo_orgless := channel_ 3 "uuid-plivo" TYPE_PLIVO "+250788000003" None.
Definition hcnx := channel_ 4 "uuid-hcnx" TYPE_HIGH_CONNECTION "+250788000004" (Some org1).
Definition blackmyna := channel_ 5 "uuid-blackmyna" TYPE_BLACKMYNA "+250788000005" (Some org1).
Definition infobip := channel_ 6 "uuid-infobip" TYPE_INFOBIP "+250788000006" (Some org1).
Definition facebook := channel_ 7 "uuid-facebook" TYPE_FACEBOOK "1234" (Some org1).
Definition twiml := channel_ 8 "uuid-twiml" TYPE_TWIML "+250788000008" (Some org1).
Definition zenvia := channel_ 9 "uuid-zenvia" TYPE_ZENVIA "+250788000009" (Some org1).
Definition globe := channel_ 10 "uuid-globe" TYPE_GLOBE "21581234" (Some org1).

Definition noon : datetime :=
  {| year := 2016; month := 11; day := 28; hour := 12; minute := 0; second := 0;
     tzinfo := Some "UTC" |}.

(** An outgoing message of channel [c] in status [s]. *)
Definition outgoing (c : Channel) (s : Status) (ext : option string) : Msg :=
  {| msg_channel := Some (channel_id c); msg_org := org c;
     msg_urn := "tel:+250788123123"; msg_text := Some "hello";
     direction := OUTGOING; status := s; external_id := ext;
     created_on := noon; media := None; broadcast := None |}.

Definition store : State :=
  {| channels := [kannel; clickatell; plivo_orgless; hcnx; blackmyna; infobip;
                  facebook; twiml; zenvia; globe];
     msgs := {[ 1%nat := outgoing kannel WIRED None;
                2%nat := outgoing kannel DELIVERED None;
                3%nat := outgoing clickatell WIRED (Some "999");
                4%nat := outgoing plivo_orgless WIRED (Some "abc");
                5%nat := outgoing twiml DELIVERED None ]};
     contacts := []; events := [] |}.

Definition request_ (get post meta : list (string * string)) : HttpRequest :=
  {| GET := list_to_map get; POST := list_to_map post; META := list_to_map meta;
     full_path := "/"; body_json := None; body_xml := None; now := noon |}.


Definition kwargs_ (action u : string) : Kwargs :=
  {| kw_action := action; kw_uuid := u |}.

End Examples.

(** Requests the examples run. *)
Module Requests.
Import Examples.

Definition plivo_status : HttpRequest :=
  request_ [] [("From", "+250788000003"); ("To", "+250788123123");
               ("MessageUUID", "abc"); ("Status", "delivered")] [].






End Requests.

(** ** What the claims speak of *)








(** The rejection of the Clickatell API id check. *)
Definition api_id_rejected (o : Outcome) : Prop :=
  exists a, o = Response (Http (Text ("Invalid API id for message delivery: " +:+ a)) 400).

(** The handlers that check a signature or a token. *)
Definition authenticated (h : Handler) : bool :=
  match h with
  | TwimlAPI | Twilio | TwilioMessagingService | Mage => true
  | _ => false
  end.

(** Some credential validates the signature the request carries, or
    the request carries Mage's token. *)
Definition authentic `{!Collab} (h : Handler) (request : HttpRequest) : Prop :=
  let signature := default "" (META request !! "HTTP_X_TWILIO_SIGNATURE") in
  match h with
  | TwimlAPI | Twilio =>
      exists token, validate token ("https://" +:+ TEMBA_HOST +:+ full_path request)
                             (POST request) signature = true
  | TwilioMessagingService =>
      exists token, validate token ("https://" +:+ HOSTNAME +:+ full_path request)
                             (POST request) signature = true
  | Mage =>
      split_on " " (default "" (META request !! "HTTP_AUTHORIZATION"))
      = ["Token"; MAGE_AUTH_TOKEN]
  | _ => True
  end.

(** How a failed check leaves the handler. *)
Definition auth_failure (o : Outcome) : Prop :=
  o = Exception (ValidationError "Invalid request signature")
  \/ o = Response (Http (Json (JObj [("error", JStr "Incorrect authentication token")])) 401).


(** What the handler compares the channel's address with. *)
Definition compared_address (h : Handler) (dest : string) : string :=
  match h with
  | Infobip | Hub9 => "+" +:+ dest
  | Plivo => match dest with
             | String c _ => if Ascii.eqb c "+" then dest else "+" +:+ dest
             | EmptyString => dest
             end
  | _ => dest
  end.


(** [callback_status h method request kwargs]: the internal status
    that handler [h] assigns to the provider's status code when the
    request is a delivery-status callback; [None] when the request is
    not one or the code has no status. The tests are those of the
    handler. Facebook, whose delivery notes travel in one request with
    new messages, is left out. *)
Definition callback_status `{!Collab} (h : Handler) (method : Method)
    (request : HttpRequest) (kwargs : Kwargs) : option Status :=
  let param n := BaseChannelHandler.get_param request n None in
  let action := lower (kw_action kwargs) in
  match h, method with
  | (TwimlAPI | Twilio), POST_ =>
      if String.eqb (default "received" (GET request !! "action")) "callback" then
        let status_ := POST request !! "SmsStatus" in
        if is_str status_ "sent" then Some SENT
        else if is_str status_ "delivered" then Some DELIVERED
        else if is_str status_ "failed" then Some FAILED
        else None
      else None
  | AfricasTalking, POST_ =>
      if String.eqb (kw_action kwargs) "delivery" then
        match POST request !! "status" with
        | Some status_ =>
            if String.eqb status_ "Success" then Some DELIVERED
            else if (String.eqb status_ "Sent" || String.eqb status_ "Buffered")%bool
            then Some SENT
            else if (String.eqb status_ "Rejected" || String.eqb status_ "Failed")%bool
            then Some FAILED
            else None
        | None => None
        end
      else None
  | Zenvia, _ =>
      if String.eqb (kw_action kwargs) "status" then
        match param "status" with
        | Some status_ =>
            match py_int status_ with
            | Some status_ =>
                if Z.eqb status_ 120 then Some DELIVERED
                else if Z.eqb status_ 111 then Some SENT
                else Some FAILED
            | None => None
            end
        | None => None
        end
      else None
  | (External | Shaqodoon | Yo | M3Tech), _ =>
      if String.eqb action "delivered" then Some DELIVERED
      else if String.eqb action "sent" then Some SENT
      else if String.eqb action "failed" then Some FAILED
      else None
  | Infobip, POST_ =>
      match body_xml request with
      | Some root =>
      match InfobipHandler.find "message" root with
      | Some message =>
          let status_ := InfobipHandler.attr "status" message in
          if is_str status_ "DELIVERED" then Some DELIVERED
          else if is_str status_ "SENT" then Some SENT
          else if bool_decide (status_ ∈
                    (Some <$> ["NOT_SENT"; "NOT_ALLOWED"; "INVALID_DESTINATION_ADDRESS";
                               "INVALID_SOURCE_ADDRESS"; "ROUTE_NOT_AVAILABLE";
                               "NOT_ENOUGH_CREDITS"; "REJECTED";
                               "INVALID_MESSAGE_FORMAT"]))
          then Some FAILED
          else None
      | None => None
      end
      | None => None
      end
  | Hub9, GET_ =>
      if String.eqb action "delivered" then
        match (match param "status" with
               | None => Some (-1)
               | Some s => py_int s
               end) with
        | Some status_ =>
            if (Z.leb 10 status_ && Z.leb status_ 12)%bool then Some DELIVERED
            else if Z.ltb 20 status_ then Some FAILED
            else if negb (Z.eqb status_ (-1)) then Some SENT
            else None
        | None => None
        end
      else None
  | HighConnection, _ =>
      if String.eqb action "status" then
        match (match param "status" with
               | None => Some 0
               | Some s => py_int s
               end) with
        | Some status_ =>
            if Z.eqb status_ 4 then Some SENT
            else if Z.eqb status_ 6 then Some DELIVERED
            else if bool_decide (status_ ∈ [2; 11; 12; 13; 14; 15; 16]) then Some FAILED
            else None
        | None => None
        end
      else None
  | Blackmyna, _ =>
      if String.eqb action "status" then
        match (match param "status" with
               | None => Some 0
               | Some s => py_int s
               end) with
        | Some status_ =>
            if Z.eqb status_ 8 then Some SENT
            else if Z.eqb status_ 1 then Some DELIVERED
            else if bool_decide (status_ ∈ [2; 16]) then Some FAILED
            else None
        | None => None
        end
      else None
  | Nexmo, _ =>
      if String.eqb action "status" then
        let status_ := param "status" in
        if is_str status_ "delivered" then Some DELIVERED
        else if (is_str status_ "accepted" || is_str status_ "buffered")%bool
        then Some SENT
        else if (is_str status_ "expired" || is_str status_ "failed")%bool
        then Some FAILED
        else None
      else None
  | Vumi, POST_ =>
      if String.eqb action "event" then
        match body_json request with
        | Some (JObj body) =>
            match assoc "event_type" body with
            | Some status_ =>
                if jis_str status_ "ack" then Some SENT
                else if jis_str status_ "nack" then None
                else if jis_str status_ "delivery_report" then
                  if jis_str (default (JStr "success") (assoc "delivery_status" body))
                             "failed"
                  then None
                  else Some DELIVERED
                else None
            | None => None
            end
        | _ => None
        end
      else None
  | Kannel, _ =>
      if String.eqb action "status" then KannelHandler.STATUS_CHOICES (param "status")
      else None
  | Clickatell, _ =>
      if String.eqb action "status" then ClickatellHandler.STATUS_CHOICES (param "status")
      else None
  | Plivo, _ =>
      if String.eqb action "status" then
        match param "Status" with
        | Some plivo_status => PlivoHandler.STATUS_CHOICES (Some plivo_status)
        | None => None
        end
      else None
  | Chikka, _ =>
      match param "message_type" with
      | Some message_type =>
          if String.eqb (lower message_type) "outgoing"
          then ChikkaHandler.status_choices (param "status")
          else None
      | None => None
      end
  | Jasmin, POST_ =>
      if String.eqb action "status" then
        match POST request !! "dlvrd", POST request !! "err" with
        | Some dlvrd, Some err =>
            if String.eqb dlvrd "1" then Some DELIVERED
            else if String.eqb err "1" then Some FAILED
            else None
        | _, _ => None
        end
      else None
  | Mblox, POST_ =>
      match body_json request with
      | Some (JObj body) =>
          match assoc "type" body, assoc "status" body with
          | Some type_, Some status_ =>
              if jis_str type_ "recipient_delivery_report_sms" then
                if jis_str status_ "Delivered" then Some DELIVERED
                else if jis_str status_ "Dispatched" then Some SENT
                else if (jis_str status_ "Aborted" || jis_str status_ "Rejected"
                         || jis_str status_ "Failed" || jis_str status_ "Expired")%bool
                then Some FAILED
                else None
              else None
          | _, _ => None
          end
      | _ => None
      end
  | Viber, POST_ =>
      if String.eqb action "status" then Some DELIVERED else None
  | _, _ => None
  end.

(** The handlers that apply SENT through a queryset filtered on the
    current status. *)
Definition filters_pending (h : Handler) : bool :=
  match h with
  | Kannel | Clickatell | Plivo | Chikka | Vumi => true
  | _ => false
  end.

(** [Msg.status_sent] leaves a message that is not PENDING, QUEUED or
    WIRED as it is (section 4.4). *)
Definition guarded_sent `{!MsgModel} : Prop :=
  forall m, status m ∉ sent_from -> status_sent m = m.

(** ** Saving fetched objects

    [saved g l t]: the table after every object of [l] went through the
    method [g] and was saved, in the order of the list. *)
Definition saved (g : Msg -> Msg) (l : list MsgObj) (t : gmap nat Msg) : gmap nat Msg :=
  foldl (fun t o => alter (fun _ => g o.2) o.1 t) t l.

(** The objects of [l] were read from the table [t]: each is the row
    under its key, no key twice. *)
Definition fetched (t : gmap nat Msg) (l : list MsgObj) : Prop :=
  NoDup l.*1 /\ Forall (fun o => t !! o.1 = Some o.2) l.

(** A row as a later fetch finds it. *)
Definition resaved (g : Msg -> Msg) (l : list MsgObj) (o : MsgObj) : MsgObj :=
  if bool_decide (o.1 ∈ l.*1) then (o.1, g o.2) else o.

(** A queryset that does not read what [g] changes. *)
Definition blind (g : Msg -> Msg) (q : QuerySet) : Prop :=
  forall o : MsgObj, q (o.1, g o.2) = q o.

Definition is_KeyError (e : Exn) : Prop := exists k, e = KeyError k.

(** The status table of a handler that has one. *)
Definition status_table (h : Handler) (code : string) : option Status :=
  match h with
  | Kannel => KannelHandler.STATUS_CHOICES (Some code)
  | Clickatell => ClickatellHandler.STATUS_CHOICES (Some code)
  | Plivo => PlivoHandler.STATUS_CHOICES (Some code)
  | Chikka => ChikkaHandler.status_choices (Some code)
  | _ => None
  end.

(** What the handler answers to a code its table lacks. *)
Definition unrecognized_response (h : Handler) (code : string) : HttpResponse :=
  match h with
  | Plivo => Http ("Unrecognized status: '" +:+ code +:+ "', ignoring message.") 401
  | Chikka =>
      Http ("Error, unrecognized status: '" +:+ code +:+ "', ignoring message.") 400
  | _ => Http ("Unrecognized status code: '" +:+ code +:+ "', ignoring message.") 401
  end.

(** A status callback that reaches the table: the channel is found, the
    request names a message of the channel and carries the code. *)
Inductive status_lookup `{!Collab} : Handler -> Method -> HttpRequest -> Kwargs
                                     -> State -> string -> Prop :=
| lookup_kannel method request kwargs st c id z code :
    List.find (by_uuid (kw_uuid kwargs) TYPE_KANNEL) (channels st) = Some c ->
    lower (kw_action kwargs) = "status" ->
    BaseChannelHandler.get_param request "id" None = Some id ->
    BaseChannelHandler.get_param request "status" None = Some code ->
    py_int id = Some z ->
    List.filter (qs_and (channel_is c) (pk_is (Some z))) (rows (msgs st)) <> [] ->
    status_lookup Kannel method request kwargs st code
| lookup_clickatell method request kwargs st c id code :
    List.find (by_uuid (kw_uuid kwargs) TYPE_CLICKATELL) (channels st) = Some c ->
    (forall a, BaseChannelHandler.get_param request "api_id" None = Some a ->
               config c !! CONFIG_API_ID = Some a) ->
    lower (kw_action kwargs) = "status" ->
    BaseChannelHandler.get_param request "apiMsgId" None = Some id ->
    BaseChannelHandler.get_param request "status" None = Some code ->
    List.filter (qs_and (channel_is c) (external_id_is (Some id))) (rows (msgs st)) <> [] ->
    status_lookup Clickatell method request kwargs st code
| lookup_plivo method request kwargs st c sms_from sms_to sms_id code :
    BaseChannelHandler.get_param request "From" None = Some sms_from ->
    BaseChannelHandler.get_param request "To" None = Some sms_to ->
    BaseChannelHandler.get_param request "MessageUUID" None = Some sms_id ->
    List.find (plivo_channel (kw_uuid kwargs)) (channels st) = Some c ->
    lower (kw_action kwargs) = "status" ->
    BaseChannelHandler.get_param request "Status" None = Some code ->
    sms_from <> "" ->
    address c = Some (compared_address Plivo sms_from) ->
    List.filter
      (qs_and (channel_is c)
         (external_id_is
            (Some (default sms_id
                     (BaseChannelHandler.get_param request "ParentMessageUUID" None)))))
      (rows (msgs st)) <> [] ->
    status_lookup Plivo method request kwargs st code
| lookup_chikka method request kwargs st c message_type id z code :
    BaseChannelHandler.get_param request "message_type" None = Some message_type ->
    lower message_type = "outgoing" ->
    List.find (by_uuid (kw_uuid kwargs) TYPE_CHIKKA) (channels st) = Some c ->
    BaseChannelHandler.get_param request "message_id" None = Some id ->
    BaseChannelHandler.get_param request "status" None = Some code ->
    py_int id = Some z ->
    List.filter (qs_and (channel_is c) (pk_is (Some z))) (rows (msgs st)) <> [] ->
    status_lookup Chikka method request kwargs st code.

(** The channel type a handler looks the uuid of the request up with. *)
Definition handler_type (h : Handler) : option string :=
  match h with
  | TwilioMessagingService => Some TYPE_TWILIO_MESSAGING_SERVICE
  | AfricasTalking => Some TYPE_AFRICAS_TALKING
  | Zenvia => Some TYPE_ZENVIA
  | Infobip => Some TYPE_INFOBIP
  | Hub9 => Some TYPE_HUB9
  | HighConnection => Some TYPE_HIGH_CONNECTION
  | Blackmyna => Some TYPE_BLACKMYNA
  | SMSCentral => Some TYPE_SMSCENTRAL
  | Kannel => Some TYPE_KANNEL
  | Clickatell => Some TYPE_CLICKATELL
  | Chikka => Some TYPE_CHIKKA
  | Jasmin => Some TYPE_JASMIN
  | Mblox => Some TYPE_MBLOX
  | Viber => Some TYPE_VIBER
  | Facebook => Some TYPE_FACEBOOK
  | Globe => Some TYPE_GLOBE
  | Start => Some TYPE_START
  | _ => None
  end.

(** The channel of a request that is routed by uuid. *)
Definition lookup_channel (h : Handler) (kwargs : Kwargs) (st : State) : option Channel :=
  match h with
  | External => List.find (external_channel TYPE_EXTERNAL (kw_uuid kwargs)) (channels st)
  | Shaqodoon => List.find (external_channel TYPE_SHAQODOON (kw_uuid kwargs)) (channels st)
  | Yo => List.find (external_channel TYPE_YO (kw_uuid kwargs)) (channels st)
  | M3Tech => List.find (external_channel TYPE_M3TECH (kw_uuid kwargs)) (channels st)
  | Plivo => List.find (plivo_channel (kw_uuid kwargs)) (channels st)
  | _ => match handler_type h with
         | Some t => List.find (by_uuid (kw_uuid kwargs) t) (channels st)
         | None => None
         end
  end.

(** Where a handler reads a field: in the form alone, or in the query
    string and then the form. *)
Definition field (h : Handler) (request : HttpRequest) (name : string) : option string :=
  match h with
  | AfricasTalking | Jasmin => POST request !! name
  | _ => BaseChannelHandler.get_param request name None
  end.

(** What a request is routed by: the action of the URL, lowered by most
    handlers, and the message type in Chikka. *)
Definition routed_action (h : Handler) (request : HttpRequest) (kwargs : Kwargs) : string :=
  match h with
  | AfricasTalking | Zenvia => kw_action kwargs
  | Chikka => lower (default "" (BaseChannelHandler.get_param request "message_type" None))
  | _ => lower (kw_action kwargs)
  end.

(** The fields a handler checks for before it does anything else for
    an action, and its answer when one of them is missing. *)
Definition required_fields (h : Handler) (method : Method) (action : string)
    : option (list string * HttpResponse) :=
  match h, method with
  | AfricasTalking, POST_ =>
      if String.eqb action "delivery" then
        Some (["status"; "id"], Http "Missing status or id parameters" 400)
      else if String.eqb action "callback" then
        Some (["from"; "text"], Http "Missing from or text parameters" 400)
      else None
  | Zenvia, _ =>
      if String.eqb action "status" then
        Some (["status"; "id"], Http "Missing parameters, requires 'status' and 'id'" 400)
      else if String.eqb action "receive" then
        Some (["date"; "from"; "msg"],
              Http "Missing parameters, requires 'from', 'date' and 'msg'" 400)
      else None
  | (External | Shaqodoon | Yo | M3Tech), _ =>
      if (String.eqb action "delivered" || String.eqb action "failed"
          || String.eqb action "sent")%bool then
        Some (["id"], Http "Missing 'id' parameter, invalid call." 400)
      else None
  | Infobip, GET_ =>
      Some (["sender"; "text"; "receiver"],
            Http "Missing parameters, must have 'sender', 'text' and 'receiver'" 400)
  | HighConnection, _ =>
      if String.eqb action "receive" then
        Some (["TO"; "FROM"; "MESSAGE"], Http "Missing TO, FROM or MESSAGE parameters" 400)
      else None
  | Blackmyna, _ =>
      if String.eqb action "receive" then
        Some (["to"; "from"; "text"], Http "Missing to, from or text parameters" 400)
      else None
  | SMSCentral, _ =>
      if String.eqb action "receive" then
        Some (["mobile"; "message"], Http "Missing mobile or message parameters" 400)
      else None
  | Kannel, _ =>
      if String.eqb action "receive" then
        Some (["id"; "ts"; "message"; "sender"],
              Http "Missing one of 'message', 'sender', 'id' or 'ts' in request parameters." 400)
      else None
  | Clickatell, _ =>
      if String.eqb action "status" then
        Some (["apiMsgId"; "status"],
              Http "Missing one of 'apiMsgId' or 'status' in request parameters." 200)
      else if String.eqb action "receive" then
        Some (["from"; "text"; "moMsgId"; "timestamp"],
              Http "Missing one of 'from', 'text', 'moMsgId' or 'timestamp' in request parameters." 200)
      else None
  | Plivo, _ =>
      Some (["From"; "To"; "MessageUUID"],
            Http "Missing one of 'From', 'To', or 'MessageUUID' in request parameters." 400)
  | Chikka, _ =>
      if String.eqb action "outgoing" then
        Some (["message_id"; "status"],
              Http "Error, missing one of 'message_id' or 'status' in request parameters." 400)
      else if String.eqb action "incoming" then
        Some (["request_id"; "mobile_number"; "message"; "timestamp"],
              Http "Error, missing one of 'mobile_number', 'request_id', 'message' or 'timestamp' in request parameters." 400)
      else None
  | Jasmin, POST_ =>
      if String.eqb action "status" then
        Some (["id"; "dlvrd"; "err"],
              Http "Missing one of 'id' or 'dlvrd' or 'err' in request parameters." 400)
      else if String.eqb action "receive" then
        Some (["content"; "coding"; "from"; "to"; "id"],
              Http "Missing one of 'content', 'coding', 'from', 'to' or 'id' in request parameters." 400)
      else None
  | _, _ => None
  end.

(** The request gets as far as the check for its fields: the channel
    is found where the handler looks for it first, the API id passes in
    Clickatell, the reception date parses in HighConnection, the
    message type is given in Chikka. *)
Definition reaches_field_check `{!Collab} (h : Handler) (request : HttpRequest)
    (kwargs : Kwargs) (st : State) : Prop :=
  match h with
  | Infobip | Plivo => True
  | Clickatell =>
      exists c, lookup_channel h kwargs st = Some c
                /\ forall a, BaseChannelHandler.get_param request "api_id" None = Some a ->
                             config c !! CONFIG_API_ID = Some a
  | HighConnection =>
      is_Some (lookup_channel h kwargs st)
      /\ forall d, BaseChannelHandler.get_param request "RECEPTION_DATE" None = Some d ->
                   is_Some (strptime d "%Y-%m-%dT%H:%M:%S")
  | Chikka =>
      is_Some (lookup_channel h kwargs st)
      /\ is_Some (BaseChannelHandler.get_param request "message_type" None)
  | _ => is_Some (lookup_channel h kwargs st)
  end.

(** The answer of a handler that finds no channel for the uuid. *)
Definition not_found_response (h : Handler) (kwargs : Kwargs) : HttpResponse :=
  let u := kw_uuid kwargs in
  match h with
  | TwilioMessagingService | AfricasTalking | Zenvia | Infobip | Hub9 =>
      Http ("Channel with uuid: " +:+ u +:+ " not found.") 404
  | HighConnection | Blackmyna | SMSCentral | Start =>
      Http ("Channel with uuid: " +:+ u +:+ " not found.") 400
  | External | Shaqodoon | Yo | M3Tech =>
      Http ("Channel with uuid or address " +:+ u +:+ " not found.") 400
  | Chikka => Http ("Error, channel not found for id: " +:+ u) 400
  | _ => Http ("Channel not found for id: " +:+ u) 400
  end.

(** The request gets as far as the lookup of its channel by uuid: the
    handler serves the method, and what it reads before the lookup is
    there. *)
Definition reaches_lookup (h : Handler) (method : Method) (request : HttpRequest) : Prop :=
  match h, method with
  | (AfricasTalking | Jasmin | Mblox | Viber | Globe | Start | Infobip), POST_ => True
  | Infobip, GET_ =>
      is_Some (BaseChannelHandler.get_param request "sender" None)
      /\ is_Some (BaseChannelHandler.get_param request "text" None)
      /\ is_Some (BaseChannelHandler.get_param request "receiver" None)
  | Hub9, GET_ => True
  | Chikka, _ => is_Some (BaseChannelHandler.get_param request "message_type" None)
  | (TwilioMessagingService | Zenvia | External | Shaqodoon | Yo | M3Tech
     | HighConnection | Blackmyna | SMSCentral | Kannel | Clickatell | Facebook), _ => True
  | _, _ => False
  end.

(** What the handlers rely on in [Msg.status_delivered]: it marks the
    message DELIVERED, does so once and for all, and leaves alone what
    the handlers look a message up by. *)
Definition stable_delivered `{!MsgModel} : Prop :=
  forall m,
    status (status_delivered m) = DELIVERED
    /\ status_delivered (status_delivered m) = status_delivered m
    /\ msg_channel (status_delivered m) = msg_channel m
    /\ external_id (status_delivered m) = external_id m
    /\ direction (status_delivered m) = direction m.

(** The handlers whose delivery callback is replayed below. *)
Definition replayed (h : Handler) : bool :=
  match h with
  | AfricasTalking | Zenvia | External | Shaqodoon | Yo | M3Tech | Infobip | Hub9
  | HighConnection | Blackmyna | Nexmo | Kannel | Jasmin | Mblox | Viber => true
  | _ => false
  end.

(** ** The handler classes

    A class is its name and its direct subclasses, in the order the
    module defines them: what [cls.__subclasses__()] returns. *)
Inductive PyClass := Class_ (name : string) (direct : list PyClass).

Definition class_name (cls : PyClass) : string :=
  match cls with Class_ name _ => name end.

Definition subclasses (cls : PyClass) : list PyClass :=
  match cls with Class_ _ direct => direct end.

(** [all_subclasses] of [get_channel_handlers]: the direct subclasses,
    then the subclasses of each of them in turn. *)
Fixpoint all_subclasses (cls : PyClass) : list PyClass :=
  match cls with
  | Class_ _ direct => direct ++ flat_map all_subclasses direct
  end.

Definition leaf (name : string) : PyClass := Class_ name [].

Definition BaseChannelHandler_class : PyClass :=
  Class_ "BaseChannelHandler"
    [ Class_ "TwimlAPIHandler" [leaf "TwilioHandler"];
      leaf "TwilioMessagingServiceHandler";
      leaf "AfricasTalkingHandler";
      leaf "ZenviaHandler";
      Class_ "ExternalHandler"
        [leaf "ShaqodoonHandler"; leaf "YoHandler"; leaf "M3TechHandler"];
      leaf "TelegramHandler";
      leaf "InfobipHandler";
      leaf "Hub9Handler";
      leaf "HighConnectionHandler";
      leaf "BlackmynaHandler";
      leaf "SMSCentralHandler";
      leaf "NexmoHandler";
      leaf "VerboiceHandler";
      leaf "VumiHandler";
      leaf "KannelHandler";
      leaf "ClickatellHandler";
      leaf "PlivoHandler";
      leaf "MageHandler";
      leaf "StartHandler";
      leaf "ChikkaHandler";
      leaf "JasminHandler";
      leaf "MbloxHandler";
      leaf "FacebookHandler";
      leaf "GlobeHandler";
      leaf "ViberHandler";
      leaf "LineHandler" ].

Definition get_channel_handlers : list PyClass :=
  all_subclasses BaseChannelHandler_class.

(** [descends cls c]: [c] is a subclass of [cls], direct or not. *)
Inductive descends : PyClass -> PyClass -> Prop :=
| descends_direct cls c : c ∈ subclasses cls -> descends cls c
| descends_deeper cls s c : s ∈ subclasses cls -> descends s c -> descends cls c.

(** The number of subclasses of a class, direct or not. *)
Fixpoint count_subclasses (cls : PyClass) : nat :=
  match cls with
  | Class_ _ direct =>
      (length direct + list_sum (List.map count_subclasses direct))%nat
  end.

(** The request Nexmo fires to test a URL: a receive without [to], a
    status without [messageId]. *)
Definition nexmo_ping (request : HttpRequest) (kwargs : Kwargs) : bool :=
  ((String.eqb (lower (kw_action kwargs)) "receive"
    && bool_decide (BaseChannelHandler.get_param request "to" None = None))
   || (String.eqb (lower (kw_action kwargs)) "status"
       && bool_decide (BaseChannelHandler.get_param request "messageId" None = None)))%bool.

(** The Nexmo channel lookup: by number, with or without the plus. *)
Definition nexmo_channel (number : string) (c : Channel) : bool :=
  ((bool_decide (address c = Some number)
    || bool_decide (address c = Some ("+" +:+ number)))
   && is_active c && String.eqb (channel_type c) TYPE_NEXMO
   && bool_decide (org c <> None))%bool.

(** ** Theorems *)

(** C10: a parameter read through [get_param] comes from the query
    string when the name is there, whatever the form body holds; from
    the form body only when the query string lacks the name; and is the
    supplied default only when both lack it. *)
Theorem get_param_precedence (request : HttpRequest) (name : string)
    (default : option string) :
  (forall q, GET request !! name = Some q ->
     BaseChannelHandler.get_param request name default = Some q) /\
  (forall f, GET request !! name = None -> POST request !! name = Some f ->
     BaseChannelHandler.get_param request name default = Some f) /\
  (GET request !! name = None -> POST request !! name = None ->
     BaseChannelHandler.get_param request name default = default).
Proof.
  unfold BaseChannelHandler.get_param.
  split; [|split].
  - intros q Hq. now rewrite Hq.
  - intros f Hq Hf. now rewrite Hq, Hf.
  - intros Hq Hf. now rewrite Hq, Hf.
Qed.

Lemma get_param_precedence_witness :
  let request := Examples.request_ [("id", "7")] [("id", "8")] [] in
  GET request !! "id" = Some "7" /\
  BaseChannelHandler.get_param request "id" None = Some "7".
Proof.
  intros request. split; [reflexivity|].
  apply (proj1 (get_param_precedence request "id" None) "7"). reflexivity.
Defined.

(** ** The message table *)

Lemma max_pk_ge (t : gmap nat Msg) pk m : t !! pk = Some m -> (pk <= max_pk t)%nat.
Proof.
  intros H. unfold max_pk. apply max_list_elem_of_le.
  apply elem_of_elements, elem_of_dom. eauto.
Qed.

Lemma elem_of_rows (t : gmap nat Msg) (o : MsgObj) :
  o ∈ rows t <-> t !! o.1 = Some o.2.
Proof.
  unfold rows. rewrite list_elem_of_omap. split.
  - intros (pk & _ & H). unfold row_at in H.
    destruct (t !! pk) eqn:E; simpl in H; [|discriminate].
    injection H as <-. exact E.
  - intros H. exists o.1. split.
    + apply elem_of_seq. pose proof (max_pk_ge _ _ _ H). lia.
    + unfold row_at. rewrite H. now destruct o.
Qed.

Lemma rows_alter (f : Msg -> Msg) pk (t : gmap nat Msg) :
  rows (alter f pk t)
  = (fun o : MsgObj => if decide (o.1 = pk) then (o.1, f o.2) else o) <$> rows t.
Proof.
  unfold rows, max_pk. rewrite dom_alter_L, list_fmap_omap.
  apply list_omap_ext, Forall2_same_length_lookup. split; [reflexivity|].
  intros i k k' Hk Hk'. assert (k' = k) as -> by congruence.
  unfold row_at. rewrite lookup_alter.
  destruct (decide (pk = k)) as [->|Hne].
  - destruct (t !! k); simpl; [|reflexivity].
    now rewrite decide_True by reflexivity.
  - destruct (t !! k); simpl; [|reflexivity].
    now rewrite decide_False by congruence.
Qed.

(** ** Symbolic execution of handler code *)

Arguments rows : simpl never.
Arguments max_pk : simpl never.
Arguments pretty : simpl never.
Arguments py_int : simpl never.
Arguments lower : simpl never.

Lemma for_each_normal {A} (l : list A) (body : A -> M unit) :
  (forall x st, (body x st).1 = Normal tt) ->
  forall st, at_ (for_each l body) st = (Normal tt, (for_each l body st).2).
Proof.
  intros Hb. induction l as [|x l IH]; intros st.
  - reflexivity.
  - unfold at_ in *. simpl. unfold bind.
    specialize (Hb x st). destruct (body x st) as [r st1]. simpl in Hb.
    subst r. apply IH.
Qed.

Ltac body_normal := intros; reflexivity.

Ltac head_of t :=
  lazymatch t with
  | ?f _ => head_of f
  | _ => t
  end.

(** A stuck scrutinee is rewritten with a hypothesis about it, computed
    when it is closed, and cased on otherwise. *)
Ltac case_on x :=
  first
  [ match goal with
    | E : ?y = _ |- _ => lazymatch x with context [y] => rewrite E end
    end
  | let x' := eval cbn in x in
    progress (change x with x')
  | destruct x eqn:? ].

(** One step of the computation in evaluation position. *)
Ltac mstep :=
  lazymatch goal with
  | |- context [@at_ ?A ?c ?st] =>
    lazymatch c with
    | bind ?c1 ?k =>
        change (@at_ A c st) with
          (match at_ c1 st with
           | (Normal a, st') => at_ (k a) st'
           | (Returned r, st') => (Returned r, st')
           | (Raised e, st') => (Raised e, st')
           end)
    | ret ?a => change (@at_ A c st) with (@Normal A a, st)
    | return_ ?r => change (@at_ A c st) with (@Returned A r, st)
    | raise ?e => change (@at_ A c st) with (@Raised A e, st)
    | (fun _ => _) => change (@at_ A c st) with (c st)
    | modify ?f => change (@at_ A c st) with (@Normal unit tt, f st)
    | emit ?e => change (@at_ A c st) with (@Normal unit tt, add_event e st)
    | update_row ?pk ?f =>
        change (@at_ A c st) with (@Normal unit tt, set_msgs (alter f pk) st)
    | first_channel ?p =>
        change (@at_ A c st) with (Normal (List.find p (channels st)), st)
    | fetch ?q =>
        change (@at_ A c st) with (Normal (List.filter q (rows (msgs st))), st)
    | for_each [] ?body => change (@at_ A c st) with (@Normal unit tt, st)
    | for_each (?x :: ?l) ?body =>
        change (@at_ A c st) with (at_ (bind (body x) (fun _ => for_each l body)) st)
    | for_each ?l ?body =>
        rewrite (for_each_normal l body ltac:(body_normal) st)
    | match ?x with _ => _ end => case_on x
    | (let x := ?v in _) => cbv zeta
    | _ => let h := head_of c in unfold h
    end; cbv beta iota zeta
  end.

Ltac mexec := repeat mstep.

Ltac start :=
  unfold handle, run;
  repeat match goal with
  | |- context [dispatch ?h ?m ?r ?k ?st] =>
      change (dispatch h m r k st) with (at_ (dispatch h m r k) st)
  end.

(** A loop whose body either goes on or raises an exception in [P]
    ends the same way. *)
Lemma for_each_outcome {A} (l : list A) (body : A -> M unit) (P : Exn -> Prop) :
  (forall x st, (body x st).1 = Normal tt \/ exists e, (body x st).1 = Raised e /\ P e) ->
  forall st, (at_ (for_each l body) st).1 = Normal tt
             \/ exists e, (at_ (for_each l body) st).1 = Raised e /\ P e.
Proof.
  intros Hb. induction l as [|x l IH]; intros st.
  - left. reflexivity.
  - unfold at_ in *. simpl. unfold bind.
    destruct (Hb x st) as [E | (e & E & He)]; destruct (body x st) as [r st1];
      simpl in E; subst r.
    + apply IH.
    + right. exists e. split; [reflexivity | exact He].
Qed.

(** ** Request parameters *)

Lemma get_param_with_GET_ne name value r n d :
  n <> name ->
  BaseChannelHandler.get_param (with_GET name value r) n d
  = BaseChannelHandler.get_param r n d.
Proof.
  intros Hne. unfold BaseChannelHandler.get_param, with_GET. simpl.
  now rewrite lookup_insert_ne by congruence.
Qed.

Lemma get_param_with_GET_eq name value r d :
  BaseChannelHandler.get_param (with_GET name value r) name d = Some value.
Proof.
  unfold BaseChannelHandler.get_param, with_GET. simpl.
  now rewrite lookup_insert_eq.
Qed.


(** C9: with the channel found, the Clickatell handler answers with the
    API id rejection exactly when the request carries an [api_id] and
    the channel's configured API id differs from it; a request without
    [api_id] is answered as the same request carrying the configured
    id. *)
Theorem clickatell_api_id_gate `{!MsgModel, !Collab} (request : HttpRequest)
    (kwargs : Kwargs) (st : State) (channel : Channel) :
  List.find (by_uuid (kw_uuid kwargs) TYPE_CLICKATELL) (channels st) = Some channel ->
  (api_id_rejected (handle Clickatell POST_ request kwargs st).1 <->
   exists a cfg, BaseChannelHandler.get_param request "api_id" None = Some a /\
                 config channel !! CONFIG_API_ID = Some cfg /\ cfg <> a)
  /\ (BaseChannelHandler.get_param request "api_id" None = None ->
      forall cfg, config channel !! CONFIG_API_ID = Some cfg ->
      handle Clickatell POST_ request kwargs st
      = handle Clickatell POST_ (with_GET "api_id" cfg request) kwargs st).
Proof.
  intros Hc. split; [split|].
  - intros [a Ha]. revert Ha. start. mexec.
    all: try (intros; discriminate).
    intros _. eexists _, _. repeat split; try reflexivity.
    intros ->. now rewrite String.eqb_refl in *.
  - intros (a & cfg & Ha & Hcfg & Hne).
    assert (E : negb (cfg =? a)%string = true)
      by (apply negb_true_iff, String.eqb_neq; exact Hne).
    start. mexec. exists a. reflexivity.
  - intros Ha cfg Hcfg. start.
    unfold dispatch, ClickatellHandler.post.
    rewrite get_param_with_GET_eq.
    rewrite !get_param_with_GET_ne by discriminate.
    assert (E : negb (cfg =? cfg)%string = false)
      by (now rewrite String.eqb_refl).
    mexec; reflexivity.
Qed.

Lemma clickatell_api_id_gate_witness :
  let request := Examples.request_ [("api_id", "777")] [] [] in
  let kwargs := Examples.kwargs_ "status" "uuid-clickatell" in
  List.find (by_uuid (kw_uuid kwargs) TYPE_CLICKATELL) (channels Examples.store)
    = Some Examples.clickatell /\
  (api_id_rejected
     (@handle spec_model Reference.collab Clickatell POST_ request kwargs Examples.store).1 <->
   exists a cfg, BaseChannelHandler.get_param request "api_id" None = Some a /\
                 config Examples.clickatell !! "api_id" = Some cfg /\ cfg <> a).
Proof.
  split; [reflexivity|].
  apply (@clickatell_api_id_gate spec_model Reference.collab). reflexivity.
Defined.

(** ** The authentication gate *)

Ltac auth_close Hv :=
  let Hn := fresh "Hn" in let Hf := fresh "Hf" in
  intros [Hn | [Hf | Hf]];
  [ repeat match goal with
           | E : context [validate] |- _ => rewrite (Hv Hn) in E
           end; discriminate
  | discriminate Hf | discriminate Hf ].

Ltac media_body :=
  let x := fresh in let st0 := fresh in
  intros x st0; unfold bind;
  match goal with
  | |- context [match ?o with Some _ => _ | None => _ end] => destruct o
  end;
  [ left; reflexivity
  | right; eexists; split; [reflexivity | eexists; reflexivity] ].

Ltac media_loop :=
  match goal with
  | |- context [at_ (for_each ?l ?body) ?st] =>
    let Hl := fresh "Hl" in
    let r := fresh "r" in let st' := fresh "st" in
    let e := fresh "e" in let k := fresh "k" in
    pose proof (for_each_outcome l body is_KeyError ltac:(media_body) st) as Hl;
    destruct (at_ (for_each l body) st) as [r st'];
    simpl in Hl; destruct Hl as [-> | (e & -> & [k ->])]; cbv beta iota zeta
  end.

Ltac twiml_close Hv :=
  let Hn := fresh "Hn" in let Hf := fresh "Hf" in
  mexec; try reflexivity; try (auth_close Hv);
  (intros [Hn | Hf];
   [ exfalso; repeat match goal with
                     | E : context [validate] |- _ => rewrite (Hv Hn) in E
                     end; discriminate
   | exfalso; revert Hf; media_loop; mexec; intros [Hf | Hf]; discriminate Hf ]).

Lemma unauthentic_invalid `{!Collab} (url : string) (request : HttpRequest) :
  ~ (exists token, validate token url (POST request)
                     (default "" (META request !! "HTTP_X_TWILIO_SIGNATURE")) = true) ->
  forall token, validate token url (POST request)
                  (default "" (META request !! "HTTP_X_TWILIO_SIGNATURE")) = false.
Proof.
  intros Hn token. destruct (validate _ _ _ _) eqn:E; [|reflexivity].
  exfalso. apply Hn. exists token. exact E.
Qed.

Lemma twiml_gate `{!MsgModel, !Collab} (TM : TwimlMethods) request kwargs st :
  TM = TwimlAPIHandler.methods \/ TM = TwilioHandler.methods ->
  ~ authentic TwimlAPI request
  \/ auth_failure (run (@TwimlAPIHandler.post _ _ TM request kwargs) st).1 ->
  (run (@TwimlAPIHandler.post _ _ TM request kwargs) st).2 = st.
Proof.
  intros HTM Hx.
  pose proof (unauthentic_invalid ("https://" +:+ TEMBA_HOST +:+ full_path request)
                request) as Hv.
  revert Hx. unfold run.
  change (TwimlAPIHandler.post request kwargs st)
    with (at_ (TwimlAPIHandler.post request kwargs) st).
  destruct HTM as [-> | ->]; unfold TwimlAPIHandler.methods, TwilioHandler.methods.
  - twiml_close Hv.
  - twiml_close Hv.
Qed.

Lemma messaging_service_gate `{!Collab} request kwargs st :
  ~ authentic TwilioMessagingService request
  \/ auth_failure (run (TwilioMessagingServiceHandler.post request kwargs) st).1 ->
  (run (TwilioMessagingServiceHandler.post request kwargs) st).2 = st.
Proof.
  intros Hx.
  pose proof (unauthentic_invalid ("https://" +:+ HOSTNAME +:+ full_path request)
                request) as Hv.
  revert Hx. unfold run.
  change (TwilioMessagingServiceHandler.post request kwargs st)
    with (at_ (TwilioMessagingServiceHandler.post request kwargs) st).
  mexec; try reflexivity; auth_close Hv.
Qed.

Lemma list_two {A} (l : list A) (a b : A) :
  length l = 2%nat -> l !! 0%nat = Some a -> l !! 1%nat = Some b -> l = [a; b].
Proof.
  destruct l as [|x [|y [|z l]]]; simpl; intros; simplify_eq. reflexivity.
Qed.

Lemma mage_token_checked `{!Collab} (request : HttpRequest) :
  let authorization := split_on " " (default "" (META request !! "HTTP_AUTHORIZATION")) in
  (negb (Nat.eqb (length authorization) 2)
   || negb (bool_decide (authorization !! 0%nat = Some "Token"))
   || negb (bool_decide (authorization !! 1%nat = Some MAGE_AUTH_TOKEN)))%bool = false ->
  authentic Mage request.
Proof.
  intros authorization Hb.
  apply orb_false_iff in Hb as [Hb H3]. apply orb_false_iff in Hb as [H1 H2].
  apply negb_false_iff in H1, H2, H3.
  apply Nat.eqb_eq in H1. apply bool_decide_eq_true in H2, H3.
  apply list_two; assumption.
Qed.

Lemma mage_gate `{!Collab} request kwargs st :
  ~ authentic Mage request
  \/ auth_failure (run (MageHandler.post request kwargs) st).1 ->
  (run (MageHandler.post request kwargs) st).2 = st.
Proof.
  unfold run.
  change (MageHandler.post request kwargs st)
    with (at_ (MageHandler.post request kwargs) st).
  mexec; try reflexivity.
  all: intros [Hn | [Hf | Hf]]; try discriminate Hf.
  all: exfalso; apply Hn, mage_token_checked; assumption.
Qed.

(** C1: in the handlers that check a Twilio signature or the Mage
    token, a request that no credential authenticates, and a request
    the handler leaves with its authentication failure, change nothing
    in the store: no message is created, no status is updated, no
    collaborator is called, whatever else the request carries. *)
Theorem authentication_gate `{!MsgModel, !Collab} (h : Handler) (method : Method)
    (request : HttpRequest) (kwargs : Kwargs) (st : State) :
  authenticated h = true ->
  ~ authentic h request \/ auth_failure (handle h method request kwargs st).1 ->
  (handle h method request kwargs st).2 = st.
Proof.
  intros Hh Hx. unfold handle in *.
  destruct h; try discriminate Hh; destruct method; unfold dispatch in *.
  - reflexivity.
  - apply twiml_gate; [left; reflexivity | exact Hx].
  - reflexivity.
  - apply twiml_gate; [right; reflexivity | exact Hx].
  - apply messaging_service_gate, Hx.
  - apply messaging_service_gate, Hx.
  - reflexivity.
  - apply mage_gate, Hx.
Qed.

Lemma authentication_gate_witness :
  let request := Examples.request_ [] [("To", "+250788000008"); ("Body", "hi");
                                       ("From", "+250788123123")]
                   [("HTTP_X_TWILIO_SIGNATURE", "forged")] in
  let kwargs := Examples.kwargs_ "" "uuid-twiml" in
  auth_failure (@handle spec_model Reference.collab TwimlAPI POST_ request kwargs
                  Examples.store).1
  /\ (@handle spec_model Reference.collab TwimlAPI POST_ request kwargs
        Examples.store).2 = Examples.store.
Proof.
  intros request kwargs.
  assert (Hf : auth_failure (@handle spec_model Reference.collab TwimlAPI POST_
                               request kwargs Examples.store).1)
    by (left; vm_compute; reflexivity).
  split; [exact Hf|].
  apply (@authentication_gate spec_model Reference.collab TwimlAPI POST_);
    [reflexivity | right; exact Hf].
Defined.

(** ** Channel resolution *)

Lemma by_uuid_sound u t chs c :
  List.find (by_uuid u t) chs = Some c ->
  is_active c = true /\ org c <> None /\ channel_type c = t /\ uuid c = u.
Proof.
  intros Hf. apply find_some in Hf as [_ Hb]. unfold by_uuid in Hb.
  apply andb_true_iff in Hb as [Hb Ho]. apply andb_true_iff in Hb as [Hb Ht].
  apply andb_true_iff in Hb as [Hu Ha].
  apply String.eqb_eq in Hu, Ht. apply bool_decide_eq_true in Ho. auto.
Qed.

(** C4: the Plivo handler resolves an active channel that has no
    organization and updates a message through it; its lookup lacks the
    [exclude(org=None)] of the other handlers. *)
Theorem plivo_resolves_orgless_channel :
  let kwargs := Examples.kwargs_ "status" "uuid-plivo" in
  let r := @handle spec_model Reference.collab Plivo POST_ Requests.plivo_status kwargs
             Examples.store in
  org Examples.plivo_orgless = None
  /\ r.1 = Response (Http "Status Updated" 200)
  /\ msgs r.2 !! 4%nat
     = Some (Examples.outgoing Examples.plivo_orgless DELIVERED (Some "abc")).
Proof.
  vm_compute. repeat split; reflexivity.
Qed.

(** ** The timestamp of a new message *)










(** ** Address matching *)





(** ** Saved objects and later fetches *)

Lemma rows_pointwise (h : nat -> Msg -> Msg) (t t' : gmap nat Msg) :
  (forall pk, t' !! pk = h pk <$> t !! pk) ->
  rows t' = (fun o : MsgObj => (o.1, h o.1 o.2)) <$> rows t.
Proof.
  intros H. unfold rows, max_pk.
  assert (dom t' = dom t) as ->.
  { apply set_eq. intros k. rewrite !elem_of_dom, H.
    destruct (t !! k); simpl; split; intros [? ?]; eauto; discriminate. }
  rewrite list_fmap_omap.
  apply list_omap_ext, Forall2_same_length_lookup. split; [reflexivity|].
  intros i k k' Hk Hk'. assert (k' = k) as -> by congruence.
  unfold row_at. rewrite H. destruct (t !! k); reflexivity.
Qed.

Lemma NoDup_rows (t : gmap nat Msg) : NoDup (rows t).*1.
Proof.
  unfold rows.
  assert (G : forall l, NoDup l -> NoDup (omap (row_at t) l).*1).
  { induction l as [|k l IH]; intros Hn; [constructor|].
    apply NoDup_cons in Hn as [Hk Hn]. simpl.
    unfold row_at at 1. destruct (t !! k) eqn:E; simpl; [|auto].
    apply NoDup_cons. split; [|auto].
    intros Hin. apply Hk. apply list_elem_of_fmap in Hin as ([k' m'] & -> & Hin).
    apply list_elem_of_omap in Hin as (k2 & Hk2 & Hr). unfold row_at in Hr.
    destruct (t !! k2); simpl in Hr; [|discriminate]. now injection Hr as -> _. }
  apply G, NoDup_seq.
Qed.

Lemma fetched_rows t : fetched t (rows t).
Proof.
  split; [apply NoDup_rows|]. apply Forall_forall. intros o. apply elem_of_rows.
Qed.

Lemma fetched_filter q t l : fetched t l -> fetched t (List.filter q l).
Proof.
  intros [Hn Hf]. induction l as [|o l IH]; [split; constructor|].
  apply Forall_cons in Hf as [Ho Hf]. simpl in Hn. apply NoDup_cons in Hn as [Hk Hn].
  destruct (IH Hn Hf) as [IHn IHf]. simpl. destruct (q o); [|split; assumption].
  split; [|constructor; assumption].
  simpl. apply NoDup_cons. split; [|assumption].
  intros Hin. apply Hk. apply list_elem_of_fmap in Hin as (o' & -> & Hin).
  apply list_elem_of_fmap_2. apply list_elem_of_In in Hin.
  apply filter_In in Hin as [Hin _]. now apply list_elem_of_In.
Qed.

Lemma fetched_query q t l : List.filter q (rows t) = l -> fetched t l.
Proof. intros <-. apply fetched_filter, fetched_rows. Qed.

Lemma fetched_cons t o l : fetched t (o :: l) -> fetched t [o].
Proof.
  intros [_ Hf]. apply Forall_cons in Hf as [Ho _].
  split; [apply NoDup_singleton | constructor; [assumption | constructor]].
Qed.

Lemma fetched_first q t o l : List.filter q (rows t) = o :: l -> fetched t [o].
Proof. intros E. eapply fetched_cons, fetched_query, E. Qed.

Lemma fetched_head q t o : head (List.filter q (rows t)) = Some o -> fetched t [o].
Proof.
  destruct (List.filter q (rows t)) as [|o' l] eqn:E; [discriminate|].
  intros [= ->]. eapply fetched_first, E.
Qed.

Lemma saved_lookup g l t pk :
  fetched t l ->
  saved g l t !! pk = (fun m => if bool_decide (pk ∈ l.*1) then g m else m) <$> t !! pk.
Proof.
  revert t. induction l as [|o l IH]; intros t [Hn Hf].
  - simpl. destruct (t !! pk); reflexivity.
  - apply Forall_cons in Hf as [Ho Hf]. simpl in Hn. apply NoDup_cons in Hn as [Hk Hn].
    change (saved g (o :: l) t) with (saved g l (alter (fun _ => g o.2) o.1 t)).
    rewrite IH.
    2:{ split; [assumption|]. apply Forall_forall. intros o' Ho'.
        rewrite lookup_alter_ne.
        - rewrite Forall_forall in Hf. now apply Hf.
        - intros E. apply Hk. rewrite E. now apply list_elem_of_fmap_2. }
    destruct (decide (pk = o.1)) as [->|Hne].
    + rewrite lookup_alter_eq, Ho. simpl.
      rewrite bool_decide_eq_false_2 by assumption.
      rewrite bool_decide_eq_true_2 by (left). reflexivity.
    + rewrite lookup_alter_ne by congruence.
      destruct (t !! pk); simpl; [|reflexivity]. f_equal.
      destruct (decide (pk ∈ l.*1)).
      * rewrite !bool_decide_eq_true_2; [reflexivity | now right | assumption].
      * rewrite !bool_decide_eq_false_2; [reflexivity | | assumption].
        intros Hin. apply elem_of_cons in Hin as [?|?]; contradiction.
Qed.

Lemma rows_saved g l t :
  fetched t l -> rows (saved g l t) = resaved g l <$> rows t.
Proof.
  intros Hf.
  rewrite (rows_pointwise (fun pk m => if bool_decide (pk ∈ l.*1) then g m else m) t).
  - apply list_fmap_ext. intros i [pk m] _. unfold resaved. simpl.
    destruct (bool_decide _); reflexivity.
  - intros pk. now apply saved_lookup.
Qed.

Lemma filter_fmap {A} (q : A -> bool) (f : A -> A) (l : list A) :
  (forall x, q (f x) = q x) -> List.filter q (f <$> l) = f <$> List.filter q l.
Proof.
  intros H. induction l as [|x l IH]; [reflexivity|].
  change (List.filter q (f <$> x :: l))
    with (if q (f x) then f x :: List.filter q (f <$> l) else List.filter q (f <$> l)).
  rewrite H, IH. simpl. destruct (q x); reflexivity.
Qed.

Lemma filter_rows_saved g l t q :
  fetched t l -> blind g q ->
  List.filter q (rows (saved g l t)) = resaved g l <$> List.filter q (rows t).
Proof.
  intros Hf Hb. rewrite rows_saved by assumption. apply filter_fmap.
  intros o. unfold resaved. destruct (bool_decide _); [apply Hb | reflexivity].
Qed.

Lemma resaved_self g l : resaved g l <$> l = (fun o : MsgObj => (o.1, g o.2)) <$> l.
Proof.
  apply list_fmap_ext. intros i o Ho. unfold resaved.
  rewrite bool_decide_eq_true_2; [reflexivity|].
  apply list_elem_of_fmap_2. eapply list_elem_of_lookup_2, Ho.
Qed.

Lemma resaved_head g o l : resaved g (o :: l) o = (o.1, g o.2).
Proof. unfold resaved. rewrite bool_decide_eq_true_2; [reflexivity | left]. Qed.

Lemma saved_id g l t :
  Forall (fun o => t !! o.1 = Some (g o.2)) l -> saved g l t = t.
Proof.
  revert t. induction l as [|o l IH]; intros t Hf; [reflexivity|].
  apply Forall_cons in Hf as [Ho Hf].
  change (saved g (o :: l) t) with (saved g l (alter (fun _ => g o.2) o.1 t)).
  assert (alter (fun _ => g o.2) o.1 t = t) as ->; [|now apply IH].
  apply map_eq. intros k. destruct (decide (k = o.1)) as [->|Hne].
  - now rewrite lookup_alter_eq, Ho.
  - now rewrite lookup_alter_ne by congruence.
Qed.

Lemma saved_again g l t :
  fetched t l -> (forall m, g (g m) = g m) ->
  saved g ((fun o : MsgObj => (o.1, g o.2)) <$> l) (saved g l t) = saved g l t.
Proof.
  intros Hf Hg. apply saved_id. apply Forall_fmap, Forall_forall. intros o Ho. simpl.
  rewrite saved_lookup by assumption.
  destruct Hf as [_ Hf]. rewrite Forall_forall in Hf. rewrite (Hf o Ho). simpl.
  rewrite bool_decide_eq_true_2 by (now apply list_elem_of_fmap_2).
  now rewrite Hg.
Qed.

Lemma saved_keeps g l t pk m :
  fetched t l -> t !! pk = Some m -> ((pk, m) ∈ l -> g m = m) ->
  saved g l t !! pk = Some m.
Proof.
  intros Hf Hm Hg. rewrite saved_lookup, Hm by assumption. simpl. f_equal.
  destruct (decide (pk ∈ l.*1)) as [Hin|Hin].
  - rewrite bool_decide_eq_true_2 by assumption. apply Hg.
    apply list_elem_of_fmap in Hin as ([pk' m'] & E & Hin). simpl in E. subst pk'.
    destruct Hf as [_ Hf]. rewrite Forall_forall in Hf. specialize (Hf _ Hin).
    simpl in Hf. assert (m' = m) by congruence. now subst m'.
  - now rewrite bool_decide_eq_false_2 by assumption.
Qed.

Lemma for_each_saved (g : Msg -> Msg) (l : list MsgObj) st :
  at_ (for_each l (fun o => update_row o.1 (fun _ => g o.2))) st
  = (Normal tt, set_msgs (saved g l) st).
Proof.
  revert st. induction l as [|o l IH]; intros st.
  - destruct st; reflexivity.
  - unfold at_ in *. simpl. unfold bind. simpl. rewrite IH. destruct st; reflexivity.
Qed.

Lemma for_each_updated (f : Msg -> Msg) (l : list MsgObj) st :
  fetched (msgs st) l ->
  at_ (for_each l (fun o => update_row o.1 f)) st
  = (Normal tt, set_msgs (saved f l) st).
Proof.
  revert st. induction l as [|o l IH]; intros st [Hn Hf].
  - destruct st; reflexivity.
  - apply Forall_cons in Hf as [Ho Hf]. simpl in Hn. apply NoDup_cons in Hn as [Hk Hn].
    unfold at_ in *. simpl. unfold bind. simpl. rewrite IH.
    + destruct st; simpl in *. unfold set_msgs; simpl. do 2 f_equal.
      f_equal. apply map_eq. intros k. destruct (decide (k = o.1)) as [->|Hne].
      * now rewrite !lookup_alter_eq, Ho.
      * now rewrite !lookup_alter_ne by congruence.
    + destruct st; simpl in *. split; [assumption|]. apply Forall_forall. intros o' Ho'.
      rewrite lookup_alter_ne.
      * rewrite Forall_forall in Hf. now apply Hf.
      * intros E. apply Hk. rewrite E. now apply list_elem_of_fmap_2.
Qed.

(** ** Status callbacks *)

Arguments resaved : simpl never.
Arguments saved : simpl never.

Lemma is_str_true v lit : is_str v lit = true -> v = Some lit.
Proof.
  destruct v as [s|]; simpl; [|discriminate].
  intros E. apply String.eqb_eq in E. now subst.
Qed.

Lemma jis_str_true j lit : jis_str j lit = true -> j = JStr lit.
Proof.
  destruct j; simpl; try discriminate.
  intros E. apply String.eqb_eq in E. now subst.
Qed.

Ltac subst_var H :=
  lazymatch type of H with
  | ?x = _ => tryif is_var x then subst x else idtac
  end.

(** Tests that came out true, as equations. *)
Ltac facts :=
  repeat match goal with
         | H : String.eqb _ _ = true |- _ => apply String.eqb_eq in H; subst_var H
         | H : is_str _ _ = true |- _ => apply is_str_true in H; subst_var H
         | H : jis_str _ _ = true |- _ => apply jis_str_true in H; subst_var H
         | H : Z.eqb _ _ = true |- _ => apply Z.eqb_eq in H; subst_var H
         end.

Ltac fetched_tac :=
  first [ eapply fetched_query; eassumption
        | eapply fetched_head; eassumption
        | eapply fetched_first; eassumption
        | eapply fetched_query; reflexivity ].

(** The leftmost test of a condition. *)
Ltac atom x :=
  lazymatch x with
  | orb ?a _ => atom a
  | andb ?a _ => atom a
  | negb ?a => atom a
  | _ => x
  end.

Ltac from_status H :=
  unfold callback_status in H; cbv beta iota zeta in H;
  repeat match type of H with
  | match ?x with _ => _ end = _ =>
      let a := atom x in
      lazymatch a with
      | true => cbn [orb andb negb] in H
      | false => cbn [orb andb negb] in H
      | _ => destruct a eqn:?
      end; try discriminate H
  end;
  facts.

Ltac case_atom a :=
  first
  [ match goal with
    | E : ?y = _ |- _ => lazymatch a with context [y] => rewrite E end
    end
  | lazymatch a with
    | bool_decide _ =>
        let v := eval cbv in a in
        lazymatch v with
        | true => change a with true
        | false => change a with false
        end
    end
  | let a' := eval cbn in a in
    progress (change a with a')
  | destruct a eqn:? ].

(** One step of a status update. *)
Ltac sstep :=
  lazymatch goal with
  | |- context [@at_ ?A ?c ?st] =>
    lazymatch c with
    | obj_status_sent ?o =>
        change (@at_ A c st) with (@Normal unit tt, set_msgs (saved status_sent [o]) st)
    | obj_status_delivered ?o =>
        change (@at_ A c st) with (@Normal unit tt, set_msgs (saved status_delivered [o]) st)
    | for_each ?l obj_status_sent =>
        change (@at_ A c st)
          with (at_ (for_each l (fun o => update_row o.1 (fun _ => status_sent o.2))) st);
        rewrite (for_each_saved status_sent l st)
    | for_each ?l obj_status_delivered =>
        change (@at_ A c st)
          with (at_ (for_each l (fun o => update_row o.1 (fun _ => status_delivered o.2))) st);
        rewrite (for_each_saved status_delivered l st)
    | for_each ?l (fun o => update_row o.1 ?f) =>
        rewrite (for_each_updated f l st) by fetched_tac
    | match ?x with _ => _ end =>
        first
        [ progress rewrite ?orb_true_r, ?andb_false_r
        | let a := atom x in
          lazymatch a with
          | true => let x' := eval cbn in x in change x with x'
          | false => let x' := eval cbn in x in change x with x'
          | _ => case_atom a
          end ]
    | _ => mstep
    end; cbv beta iota zeta
  end.

Ltac sexec := repeat sstep.

Lemma in_pending (q : QuerySet) l (o : MsgObj) :
  o ∈ List.filter (qs_and q (status_in [PENDING; QUEUED; WIRED])) l ->
  status o.2 ∈ sent_from.
Proof.
  intros Hin. apply list_elem_of_In, filter_In in Hin as [_ Hq].
  unfold qs_and, status_in in Hq. apply andb_true_iff in Hq as [_ Hq].
  now apply bool_decide_eq_true in Hq.
Qed.

Ltac jstr_clash :=
  match goal with
  | H1 : jis_str ?j _ = true, H2 : jis_str ?j _ = true |- _ =>
      destruct j; try discriminate H1;
      apply String.eqb_eq in H1, H2; rewrite H1 in H2; discriminate H2
  end.

Section sent.
Context `{!MsgModel, !Collab}.

Ltac keep Hm Hs Hg :=
  simpl;
  repeat (match goal with
          | |- context [msgs (if ?b then _ else _)] => destruct b
          end; simpl);
  first
  [ exact Hm
  | apply saved_keeps;
    [ fetched_tac
    | exact Hm
    | let Hin := fresh in
      intros Hin;
      first [ apply Hg, Hs
            | exfalso; apply Hs; apply (in_pending _ _ _ Hin) ] ] ].

Ltac sent_by Hcb Hm Hs Hg :=
  from_status Hcb; start; sexec; keep Hm Hs Hg.


(** X1: a delivery-status callback that maps to SENT leaves every
    message whose status is not PENDING, QUEUED or WIRED as it was, a
    DELIVERED one included. Kannel, Clickatell, Plivo, Chikka and Vumi
    apply SENT through a queryset filtered on the three statuses; the
    other handlers call [Msg.status_sent] on the message they fetched,
    which is taken to leave such a message alone. *)
Theorem sent_only_from_pending (h : Handler) (method : Method) (request : HttpRequest)
    (kwargs : Kwargs) (st : State) (pk : nat) (m : Msg) :
  callback_status h method request kwargs = Some SENT ->
  filters_pending h = true \/ guarded_sent ->
  msgs st !! pk = Some m -> status m ∉ sent_from ->
  msgs (handle h method request kwargs st).2 !! pk = Some m.
Proof.
  intros Hcb Hx Hm Hs.
  assert (Hg : filters_pending h = false -> guarded_sent)
    by (intros E; destruct Hx as [Hx|Hx]; [congruence | exact Hx]).
  clear Hx.
  destruct h; try discriminate Hcb;
    first [specialize (Hg eq_refl) | clear Hg; pose proof I as Hg].
  all: destruct method; try discriminate Hcb.
  all: from_status Hcb; start; sexec.
  all: try (exfalso; jstr_clash).
  all: keep Hm Hs Hg.
Qed.

End sent.

Lemma sent_only_from_pending_witness :
  let request := Examples.request_ [("action", "callback"); ("id", "5")]
                   [("To", "+250788000008"); ("SmsStatus", "sent")]
                   [("HTTP_X_TWILIO_SIGNATURE", "twilio-token")] in
  let kwargs := Examples.kwargs_ "" "uuid-twiml" in
  let m := Examples.outgoing Examples.twiml DELIVERED None in
  let r := @handle spec_model Reference.collab TwimlAPI POST_ request kwargs
             Examples.store in
  @callback_status Reference.collab TwimlAPI POST_ request kwargs = Some SENT
  /\ @guarded_sent spec_model
  /\ msgs Examples.store !! 5%nat = Some m
  /\ r.1 = Response (Http "" 200)
  /\ msgs r.2 !! 5%nat = Some m.
Proof.
  intros request kwargs m r.
  assert (Hcb : @callback_status Reference.collab TwimlAPI POST_ request kwargs
                = Some SENT) by reflexivity.
  assert (Hg : @guarded_sent spec_model).
  { intros m' Hs. simpl. unfold spec_status_sent.
    now rewrite bool_decide_eq_false_2. }
  assert (Hm : msgs Examples.store !! 5%nat = Some m) by reflexivity.
  split; [exact Hcb|]. split; [exact Hg|]. split; [exact Hm|].
  split; [vm_compute; reflexivity|].
  apply (@sent_only_from_pending spec_model Reference.collab TwimlAPI POST_ request
           kwargs Examples.store 5%nat m Hcb (or_intror Hg) Hm).
  unfold sent_from. simpl. intros Hin.
  repeat (apply elem_of_cons in Hin as [Hin|Hin]; [discriminate Hin|]).
  inversion Hin.
Defined.

(** ** Unrecognized status codes *)

Section unrecognized.
Context `{!MsgModel, !Collab}.

Lemma py_int_truthy s z : py_int s = Some z -> truthy (Some s) = true.
Proof. destruct s; [vm_compute; discriminate | reflexivity]. Qed.

(** X2: a status callback that reaches the status table of Kannel,
    Clickatell, Plivo or Chikka with a code the table lacks is answered
    with the handler's unrecognized-status response, 401 in Kannel,
    Clickatell and Plivo and 400 in Chikka, and the store stays as it
    was. *)
Theorem unrecognized_status_code (h : Handler) (method : Method) (request : HttpRequest)
    (kwargs : Kwargs) (st : State) (code : string) :
  status_lookup h method request kwargs st code ->
  status_table h code = None ->
  handle h method request kwargs st = (Response (unrecognized_response h code), st).
Proof.
  intros Hl Ht. destruct Hl; unfold status_table in Ht;
    try match goal with
        | Hp : py_int _ = Some _ |- _ => pose proof (py_int_truthy _ _ Hp)
        end.
  - destruct method; start; sexec; try reflexivity; contradiction.
  - destruct (BaseChannelHandler.get_param request "api_id" None) as [a|] eqn:Eapi.
    + match goal with
      | Ha : forall a : string, @?P a |- _ =>
          pose proof (Ha a eq_refl); clear Ha
      end.
      pose proof (String.eqb_refl a).
      destruct method; start; sexec; try reflexivity; contradiction.
    + destruct method; start; sexec; try reflexivity; contradiction.
  - destruct sms_from as [|a sms_from]; [congruence|].
    match goal with
    | Ha : address _ = Some _ |- _ => unfold compared_address in Ha
    end.
    destruct (Ascii.eqb a "+") eqn:Ep.
    all: match goal with
         | Ha : address _ = Some _ |- _ =>
             pose proof (bool_decide_eq_true_2 _ Ha); clear Ha
         end.
    all: destruct method; start; sexec; try reflexivity; contradiction.
  - destruct method; start; sexec; try reflexivity; contradiction.
Qed.

End unrecognized.

Lemma unrecognized_status_code_witness :
  let request := Examples.request_ [("id", "1"); ("status", "077")] [] [] in
  let kwargs := Examples.kwargs_ "status" "uuid-kannel" in
  @status_lookup Reference.collab Kannel GET_ request kwargs Examples.store "077"
  /\ status_table Kannel "077" = None
  /\ @handle spec_model Reference.collab Kannel GET_ request kwargs Examples.store
     = (Response (Http "Unrecognized status code: '077', ignoring message." 401),
        Examples.store).
Proof.
  intros request kwargs.
  assert (Hl : @status_lookup Reference.collab Kannel GET_ request kwargs
                 Examples.store "077").
  { apply (@lookup_kannel Reference.collab GET_ request kwargs Examples.store
             Examples.kannel "1" 1 "077"); try reflexivity.
    vm_compute. discriminate. }
  split; [exact Hl|]. split; [reflexivity|].
  exact (@unrecognized_status_code spec_model Reference.collab Kannel GET_ request kwargs
           Examples.store "077" Hl eq_refl).
Defined.

(** ** Missing fields *)

Arguments BaseChannelHandler.get_param : simpl never.

Section missing.
Context `{!MsgModel, !Collab}.

Ltac in_fields Hin :=
  repeat (apply elem_of_cons in Hin as [-> | Hin]); [..|inversion Hin].

Ltac cases_of H :=
  repeat match type of H with
         | match ?x with _ => _ end = _ =>
             let a := atom x in
             lazymatch a with
             | true => cbn [orb andb negb] in H
             | false => cbn [orb andb negb] in H
             | _ => destruct a eqn:?
             end; try discriminate H
         end;
  facts.

Ltac is_missing Hreq Hin :=
  cbv beta iota delta [required_fields] in Hreq; cases_of Hreq;
  injection Hreq as <- <-; in_fields Hin;
  start; sexec; reflexivity.

(** The handlers that serve GET as they serve POST are run once. *)
Ltac any_method Hreq :=
  lazymatch goal with
  | |- handle ?h ?m ?r ?k ?s = _ =>
      tryif is_var m then
        (let Hr := fresh "Hr" in
         lazymatch type of Hreq with
         | required_fields _ _ ?a = ?v =>
             assert (Hr : required_fields h POST_ a = v) by (destruct m; exact Hreq)
         end;
         replace (handle h m r k s) with (handle h POST_ r k s)
           by (destruct m; reflexivity);
         clear Hreq; rename Hr into Hreq)
      else idtac
  end.

Ltac prepare Hreach Hreq request :=
  lazymatch goal with
  | |- handle HighConnection _ _ _ _ = _ =>
      let c := fresh "c" in let Hc := fresh "Hc" in let Hd := fresh "Hd" in
      let d := fresh "d" in let Ed := fresh "Ed" in
      let dt := fresh "dt" in let Hdt := fresh "Hdt" in
      destruct Hreach as [[c Hc] Hd];
      destruct (BaseChannelHandler.get_param request "RECEPTION_DATE" None) as [d|] eqn:Ed;
      [ destruct (Hd d eq_refl) as [dt Hdt] | ]; clear Hd
  | |- handle Clickatell _ _ _ _ = _ =>
      let c := fresh "c" in let Hc := fresh "Hc" in let Ha := fresh "Ha" in
      let a := fresh "a" in let Ea := fresh "Ea" in
      destruct Hreach as (c & Hc & Ha);
      destruct (BaseChannelHandler.get_param request "api_id" None) as [a|] eqn:Ea;
      [ pose proof (Ha a eq_refl); pose proof (String.eqb_refl a) | ]; clear Ha
  | |- handle Chikka _ _ _ _ = _ =>
      let c := fresh "c" in let Hc := fresh "Hc" in
      let mt := fresh "mt" in let Hmt := fresh "Hmt" in
      destruct Hreach as [[c Hc] [mt Hmt]];
      rewrite Hmt in Hreq; change (default "" (Some mt)) with mt in Hreq
  | |- handle Infobip _ _ _ _ = _ => idtac
  | |- handle Plivo _ _ _ _ = _ => idtac
  | |- _ =>
      let c := fresh "c" in let Hc := fresh "Hc" in
      destruct Hreach as [c Hc]
  end.

(** X3: a request that lacks one of the fields its handler checks for
    first is answered with the handler's missing-field response, a 400
    in every handler but Clickatell, which answers 200, and the store
    stays as it was. *)
Theorem missing_field (h : Handler) (method : Method) (request : HttpRequest)
    (kwargs : Kwargs) (st : State) (fields : list string) (resp : HttpResponse)
    (name : string) :
  required_fields h method (routed_action h request kwargs) = Some (fields, resp) ->
  reaches_field_check h request kwargs st ->
  name ∈ fields -> field h request name = None ->
  handle h method request kwargs st = (Response resp, st).
Proof.
  intros Hreq Hreach Hin Hf.
  destruct h; try (destruct method; discriminate Hreq);
    cbv beta iota delta [reaches_field_check lookup_channel handler_type] in Hreach;
    cbv beta iota delta [field routed_action] in Hf, Hreq.
  all: lazymatch goal with
       | |- handle AfricasTalking _ _ _ _ = _ => destruct method; [discriminate Hreq|]
       | |- handle Jasmin _ _ _ _ = _ => destruct method; [discriminate Hreq|]
       | |- handle Infobip _ _ _ _ = _ => destruct method; [|discriminate Hreq]
       | |- _ => any_method Hreq
       end.
  all: prepare Hreach Hreq request.
  all: is_missing Hreq Hin.
Qed.

End missing.

Lemma missing_field_witness :
  let request := Examples.request_ [("from", "+250788123123"); ("moMsgId", "77");
                                    ("timestamp", "2016-11-28 12:00:00")] [] [] in
  let kwargs := Examples.kwargs_ "receive" "uuid-clickatell" in
  let fields := ["from"; "text"; "moMsgId"; "timestamp"] in
  let resp :=
    Http "Missing one of 'from', 'text', 'moMsgId' or 'timestamp' in request parameters."
         200 in
  required_fields Clickatell GET_ (routed_action Clickatell request kwargs)
  = Some (fields, resp)
  /\ @reaches_field_check Reference.collab Clickatell request kwargs Examples.store
  /\ field Clickatell request "text" = None
  /\ @handle spec_model Reference.collab Clickatell GET_ request kwargs Examples.store
     = (Response resp, Examples.store).
Proof.
  intros request kwargs fields resp.
  assert (Hreq : required_fields Clickatell GET_ (routed_action Clickatell request kwargs)
                 = Some (fields, resp)) by (vm_compute; reflexivity).
  assert (Hreach : @reaches_field_check Reference.collab Clickatell request kwargs
                     Examples.store).
  { exists Examples.clickatell. split; [reflexivity|].
    intros a Ha. vm_compute in Ha. discriminate Ha. }
  assert (Hf : field Clickatell request "text" = None) by (vm_compute; reflexivity).
  split; [exact Hreq|]. split; [exact Hreach|]. split; [exact Hf|].
  apply (@missing_field spec_model Reference.collab Clickatell GET_ request kwargs
           Examples.store fields resp "text" Hreq Hreach); [|exact Hf].
  apply list_elem_of_In. simpl. auto.
Defined.

(** ** Requests for no channel *)

Section not_found.
Context `{!MsgModel, !Collab}.

(** X4: a request whose uuid matches no active channel of the
    handler's type with an organization is answered with the handler's
    channel-not-found response, a 404 in the Twilio messaging service,
    Africa's Talking, Zenvia, Infobip and Hub9 handlers and a 400 in
    the others, and the store stays as it was. *)
Theorem channel_not_found (h : Handler) (method : Method) (request : HttpRequest)
    (kwargs : Kwargs) (st : State) :
  reaches_lookup h method request ->
  lookup_channel h kwargs st = None ->
  handle h method request kwargs st = (Response (not_found_response h kwargs), st).
Proof.
  intros Hr Hl.
  destruct h, method; cbv beta iota delta [reaches_lookup] in Hr; try contradiction;
    cbv beta iota delta [lookup_channel handler_type] in Hl.
  all: repeat match goal with
              | Hs : _ /\ _ |- _ => destruct Hs
              | Hs : is_Some _ |- _ => destruct Hs
              end.
  all: start; sexec; reflexivity.
Qed.

End not_found.

Lemma channel_not_found_witness :
  let request := Examples.request_ [("id", "1"); ("status", "1")] [] [] in
  let kwargs := Examples.kwargs_ "status" "uuid-clickatell" in
  reaches_lookup Kannel GET_ request
  /\ lookup_channel Kannel kwargs Examples.store = None
  /\ @handle spec_model Reference.collab Kannel GET_ request kwargs Examples.store
     = (Response (Http "Channel not found for id: uuid-clickatell" 400), Examples.store).
Proof.
  intros request kwargs.
  assert (Hl : lookup_channel Kannel kwargs Examples.store = None) by reflexivity.
  split; [exact I|]. split; [exact Hl|].
  exact (@channel_not_found spec_model Reference.collab Kannel GET_ request kwargs
           Examples.store I Hl).
Defined.

(** ** A delivery callback received twice *)

Lemma head_filter_rows_saved g l t q :
  fetched t l -> blind g q ->
  head (List.filter q (rows (saved g l t))) = resaved g l <$> head (List.filter q (rows t)).
Proof.
  intros Hf Hb. rewrite filter_rows_saved by assumption.
  destruct (List.filter q (rows t)); reflexivity.
Qed.

Lemma resaved_keys {A} (f : nat -> A) g (l : list MsgObj) :
  (fun o : MsgObj => f o.1) <$> ((fun o : MsgObj => (o.1, g o.2)) <$> l)
  = (fun o : MsgObj => f o.1) <$> l.
Proof. rewrite <- list_fmap_compose. now apply list_fmap_ext. Qed.

Ltac use_fetch :=
  repeat match goal with
         | E : List.filter _ _ = _ |- _ => rewrite E
         | E : head (List.filter _ _) = _ |- _ => rewrite E
         end;
  rewrite ?resaved_self.

Section delivered.
Context `{!MsgModel, !Collab}.
Hypothesis Hst : stable_delivered.

Lemma delivered_blind_channel c : blind status_delivered (channel_is c).
Proof.
  intros [pk m]. unfold channel_is. simpl.
  destruct (Hst m) as (_ & _ & -> & _). reflexivity.
Qed.

Lemma delivered_blind_pk v : blind status_delivered (pk_is v).
Proof. intros [pk m]. reflexivity. Qed.

Lemma delivered_blind_external v : blind status_delivered (external_id_is v).
Proof.
  intros [pk m]. unfold external_id_is. simpl.
  destruct (Hst m) as (_ & _ & _ & -> & _). reflexivity.
Qed.

Lemma delivered_blind_direction d : blind status_delivered (direction_is d).
Proof.
  intros [pk m]. unfold direction_is. simpl.
  destruct (Hst m) as (_ & _ & _ & _ & ->). reflexivity.
Qed.

Lemma delivered_blind_and (q p : QuerySet) :
  blind status_delivered q -> blind status_delivered p ->
  blind status_delivered (qs_and q p).
Proof. intros Hq Hp [pk m]. unfold qs_and. now rewrite Hq, Hp. Qed.

Ltac blind_tac :=
  repeat first [ apply delivered_blind_pk | apply delivered_blind_external
               | apply delivered_blind_channel | apply delivered_blind_direction
               | apply delivered_blind_and ].

(** One step of a request that follows a status update. *)
Ltac rstep :=
  first
  [ progress cbn [msgs channels contacts events set_msgs add_event add_contact fst snd]
  | match goal with
    | |- context [head (List.filter ?q (rows (saved ?g ?l ?t)))] =>
        rewrite (head_filter_rows_saved g l t q) by first [fetched_tac | blind_tac];
        use_fetch
    | |- context [List.filter ?q (rows (saved ?g ?l ?t))] =>
        rewrite (filter_rows_saved g l t q) by first [fetched_tac | blind_tac];
        use_fetch
    | |- context [resaved ?g (?o :: ?l) ?o] => rewrite (resaved_head g o l)
    end
  | sstep ].

Ltac rexec := repeat rstep.

Ltac again_close :=
  split;
  [ first [ reflexivity | rewrite ?fmap_cons, ?resaved_keys; reflexivity ]
  | first [ reflexivity
          | match goal with
            | |- saved _ _ (saved ?g ?l ?t) = _ =>
                apply (saved_again g l t); [fetched_tac | intros m0; apply Hst]
            end ] ].

Ltac replay Hcb :=
  lazymatch goal with
  | |- handle ?h ?m ?r ?k ?s = (?o1, ?st1) -> _ =>
      let again := fresh "again" in let Ea := fresh "Ea" in
      remember (handle h m r k st1) as again eqn:Ea;
      from_status Hcb; start; rexec;
      intros [= <- <-]; subst again; start; rexec; again_close
  end.

(** The method that reaches the callback; a handler that serves GET as
    it serves POST is run once. *)
Ltac one_method Hcb method :=
  first
  [ destruct method; [discriminate Hcb|]
  | destruct method; [|discriminate Hcb]
  | lazymatch type of Hcb with
    | callback_status ?h method ?r ?k = ?v =>
        let Hp := fresh "Hp" in let Hm := fresh "Hm" in
        assert (Hp : callback_status h POST_ r k = v) by (destruct method; exact Hcb);
        assert (Hm : forall s, handle h method r k s = handle h POST_ r k s)
          by (intros; destruct method; reflexivity);
        rewrite !Hm; clear Hm Hcb; rename Hp into Hcb
    end ].

(** X5: a delivery callback of these handlers that maps to DELIVERED
    and arrives a second time gets the answer the first one got and
    leaves the message table as the first one left it, whenever
    [Msg.status_delivered] marks a message once and for all and keeps
    its channel, external id and direction. *)
Theorem delivery_replayed (h : Handler) (method : Method) (request : HttpRequest)
    (kwargs : Kwargs) (st : State) :
  replayed h = true ->
  callback_status h method request kwargs = Some DELIVERED ->
  let once := handle h method request kwargs st in
  let twice := handle h method request kwargs once.2 in
  twice.1 = once.1 /\ msgs twice.2 = msgs once.2.
Proof.
  intros Hh Hcb. cbv zeta.
  destruct (handle h method request kwargs st) as [o1 st1] eqn:E1.
  cbn [fst snd]. revert E1.
  destruct h; try discriminate Hh; one_method Hcb method.
  all: replay Hcb.
Qed.

End delivered.

Lemma delivery_replayed_witness :
  let request := Examples.request_ [("id", "1"); ("status", "1")] [] [] in
  let kwargs := Examples.kwargs_ "status" "uuid-kannel" in
  let once := @handle spec_model Reference.collab Kannel GET_ request kwargs
                Examples.store in
  let twice := @handle spec_model Reference.collab Kannel GET_ request kwargs once.2 in
  @stable_delivered spec_model
  /\ @callback_status Reference.collab Kannel GET_ request kwargs = Some DELIVERED
  /\ once.1 = Response (Http "SMS Status Updated" 200)
  /\ msgs once.2 !! 1%nat = Some (Examples.outgoing Examples.kannel DELIVERED None)
  /\ twice.1 = once.1 /\ msgs twice.2 = msgs once.2.
Proof.
  intros request kwargs once twice.
  assert (Hst : @stable_delivered spec_model) by (intros m; repeat split).
  assert (Hcb : @callback_status Reference.collab Kannel GET_ request kwargs
                = Some DELIVERED) by reflexivity.
  split; [exact Hst|]. split; [exact Hcb|].
  split; [vm_compute; reflexivity|]. split; [vm_compute; reflexivity|].
  exact (@delivery_replayed spec_model Reference.collab Hst Kannel GET_ request kwargs
           Examples.store eq_refl Hcb).
Defined.

(** ** The list of handler classes *)

Section PyClass_induction.
Variable P : PyClass -> Prop.
Hypothesis step : forall name direct, Forall P direct -> P (Class_ name direct).

Fixpoint PyClass_nested_ind (cls : PyClass) : P cls :=
  match cls with
  | Class_ name direct =>
      step name direct
        ((fix go (l : list PyClass) : Forall P l :=
            match l with
            | [] => @List.Forall_nil _ P
            | c :: r => @List.Forall_cons _ P c r (PyClass_nested_ind c) (go r)
            end) direct)
  end.
End PyClass_induction.

Lemma elem_of_flat_map {A B} (f : A -> list B) (l : list A) (y : B) :
  y ∈ flat_map f l <-> exists x, x ∈ l /\ y ∈ f x.
Proof.
  rewrite list_elem_of_In, in_flat_map. split.
  - intros (x & Hx & Hy). exists x. now rewrite !list_elem_of_In.
  - intros (x & Hx & Hy). exists x. now rewrite <- !list_elem_of_In.
Qed.

(** X6: [all_subclasses] lists exactly the classes that descend from
    the class it is given, each as often as the class tree holds it:
    the list has one entry per subclass, direct or not, and the direct
    subclasses come first, in the order of their definition. *)
Theorem all_subclasses_complete (cls : PyClass) :
  (forall c, c ∈ all_subclasses cls <-> descends cls c)
  /\ length (all_subclasses cls) = count_subclasses cls
  /\ take (length (subclasses cls)) (all_subclasses cls) = subclasses cls.
Proof.
  induction cls as [name direct IH] using PyClass_nested_ind.
  split; [|split].
  - intros c. simpl. rewrite elem_of_app, elem_of_flat_map. split.
    + intros [Hd | (s & Hs & Hc)].
      * now apply descends_direct.
      * apply (descends_deeper _ s); [exact Hs|].
        rewrite Forall_forall in IH. now apply (IH s Hs).
    + intros Hd. inversion Hd as [cls' c' Hin | cls' s c' Hs Hc]; subst; simpl in *.
      * now left.
      * right. exists s. split; [exact Hs|].
        rewrite Forall_forall in IH. now apply (IH s Hs).
  - simpl. rewrite length_app. f_equal.
    induction direct as [|s r IHr]; [reflexivity|].
    apply Forall_cons in IH as [Hs Hr]. simpl. rewrite length_app.
    destruct Hs as (_ & -> & _). f_equal. now apply IHr.
  - simpl. now rewrite take_app_length.
Qed.

(** The module has thirty handler classes; [get_channel_handlers]
    names each of them once. *)
Lemma get_channel_handlers_names :
  length get_channel_handlers = 30%nat
  /\ NoDup (class_name <$> get_channel_handlers)
  /\ class_name <$> drop 26 get_channel_handlers
     = ["TwilioHandler"; "ShaqodoonHandler"; "YoHandler"; "M3TechHandler"].
Proof.
  split; [reflexivity|]. split; [|reflexivity].
  apply (@bool_decide_unpack (NoDup (class_name <$> get_channel_handlers)) _).
  vm_compute. exact I.
Qed.

(** ** What Nexmo checks before it touches a message *)

Section nexmo.
Context `{!MsgModel, !Collab}.

Lemma nexmo_any_method method request kwargs st :
  handle Nexmo method request kwargs st = handle Nexmo POST_ request kwargs st.
Proof. destruct method; reflexivity. Qed.

(** X7: the Nexmo handler answers its test request (a receive without
    [to], a status without [messageId]) with 200 before it looks for
    a channel; any other request without [to] ends in the [TypeError]
    of ['+' + None]; and a request whose number has no active Nexmo
    channel, or whose channel belongs to an organization with another
    Nexmo key than the uuid of the URL, is answered 404. The store is
    the same after each of them. *)
Theorem nexmo_gate (method : Method) (request : HttpRequest) (kwargs : Kwargs)
    (st : State) :
  (nexmo_ping request kwargs = true ->
   handle Nexmo method request kwargs st
   = (Response (Http "No to parameter, ignoring" 200), st))
  /\ (nexmo_ping request kwargs = false ->
      BaseChannelHandler.get_param request "to" None = None ->
      handle Nexmo method request kwargs st = (Exception TypeError, st))
  /\ (forall number,
        nexmo_ping request kwargs = false ->
        BaseChannelHandler.get_param request "to" None = Some number ->
        (forall c o, List.find (nexmo_channel number) (channels st) = Some c ->
                     org c = Some o ->
                     org_config o !! NEXMO_UUID <> Some (kw_uuid kwargs)) ->
        handle Nexmo method request kwargs st
        = (Response (Http ("Channel not found for number: " +:+ number) 404), st)).
Proof.
  rewrite nexmo_any_method. unfold nexmo_ping.
  split; [|split].
  - intros Hp. start. unfold dispatch, NexmoHandler.get. cbv beta iota zeta.
    change (at_ ?c st) with (c st). cbv beta. rewrite Hp. reflexivity.
  - intros Hp Hto. start. unfold dispatch, NexmoHandler.get. cbv beta iota zeta.
    change (at_ ?c st) with (c st). cbv beta. rewrite Hp, Hto. reflexivity.
  - intros number Hp Hto Hkey. start. unfold dispatch, NexmoHandler.get.
    cbv beta iota zeta. rewrite Hp, Hto. cbv beta iota zeta.
    unfold nexmo_channel in Hkey.
    repeat (lazymatch goal with
            | |- context [List.find _ (channels st)] => fail
            | |- _ => sstep
            end).
    match goal with
    | |- context [List.find ?p (channels st)] =>
        destruct (List.find p (channels st)) as [c|] eqn:Ec
    end.
    + pose proof (find_some _ _ Ec) as [_ Hc].
      apply andb_true_iff in Hc as [_ Ho]. apply bool_decide_eq_true in Ho.
      destruct (org c) as [o|] eqn:Eo; [|congruence].
      specialize (Hkey c o eq_refl Eo).
      pose proof (bool_decide_eq_false_2 _ Hkey) as Hb.
      sexec. reflexivity.
    + sexec. reflexivity.
Qed.

End nexmo.

Lemma nexmo_gate_witness :
  let request := Examples.request_ [] [] [] in
  let kwargs := Examples.kwargs_ "receive" "nexmo-key" in
  nexmo_ping request kwargs = true
  /\ @handle spec_model Reference.collab Nexmo GET_ request kwargs Examples.store
     = (Response (Http "No to parameter, ignoring" 200), Examples.store).
Proof.
  intros request kwargs.
  assert (Hp : nexmo_ping request kwargs = true) by reflexivity.
  split; [exact Hp|].
  exact (proj1 (@nexmo_gate spec_model Reference.collab GET_ request kwargs
                  Examples.store) Hp).
Defined.
